(** * A shallow embedding of the RAG chatbot's retrieval pipeline

    The development follows the three Python modules it verifies:
    - [pdf_handler.py]: text cleaning and the sliding-window chunker;
    - [vector_db.py]: the FAISS-backed collection and its on-disk mirror;
    - [chat_bot.py]: prompt assembly and the answer record.

    Python values are modelled as the code uses them: a [str] is a list of
    code points, an [int] is a [Z], a [dict] with string keys is a [gmap],
    a raised exception is the [Raise] case of a result type. *)

From Stdlib Require Import ZArith Lia List Ascii String DecimalString Sorting.Sorted Sorting.Permutation.
From stdpp Require Import gmap strings list sorting.

Local Open Scope Z_scope.

(** ** Python values *)

(** A character is its Unicode code point; a Python [str] is a list of them. *)
Definition char : Set := N.
Abbreviation str := (list char).

Definition ch (a : ascii) : char := N_of_ascii a.
Definition py (s : string) : str := map ch (list_ascii_of_string s).

(** The scalar values found in chunk and metadata dictionaries. *)
Inductive value : Set :=
| VNone
| VInt (z : Z)
| VStr (s : str).

#[global] Instance value_eq_dec : EqDecision value.
Proof. solve_decision. Defined.

Abbreviation dict := (gmap string value).

(** [str(x)]: decimal digits for an int, the text itself for a str. *)
Definition py_str (v : value) : str :=
  match v with
  | VNone => py "None"
  | VInt z => py (NilZero.string_of_int (Z.to_int z))
  | VStr s => s
  end.

(** [len(x)] as a Python int. *)
Definition len {A} (l : list A) : Z := Z.of_nat (length l).

(** Index normalisation of a slice bound: a negative bound counts from the
    end, and both ends are clamped to [0, len]. *)
Definition clamp_index (n i : Z) : Z :=
  if i <? 0 then Z.max 0 (i + n) else Z.min i n.

(** [l[lo:hi]] *)
Definition slice {A} (l : list A) (lo hi : Z) : list A :=
  let lo' := clamp_index (len l) lo in
  let hi' := clamp_index (len l) hi in
  take (Z.to_nat (hi' - lo')) (drop (Z.to_nat lo') l).

(** [s.rfind(c)]: the highest index holding [c], or -1. *)
Fixpoint rfind_from (c : char) (s : str) (i found : Z) : Z :=
  match s with
  | [] => found
  | x :: s' => rfind_from c s' (i + 1) (if N.eqb x c then i else found)
  end.

Definition rfind (s : str) (c : char) : Z := rfind_from c s 0 (-1).

(** ** pdf_handler.py *)

Record PDFHandler : Set := {
  chunk_size : Z;
  chunk_overlap : Z
}.

(** [PDFHandler()] with the defaults of [__init__]. *)
Definition default_handler : PDFHandler :=
  {| chunk_size := 1000; chunk_overlap := 200 |}.

(** The two classifications of the Unicode database that [re] and
    [str.strip] consult: [str.isspace] (the class [\s]) and [str.isalnum]
    (with the underscore, the class [\w]). The database is not part of
    the repository; the model takes it as an interface. *)
Class Unicode : Type := {
  isspace : char -> bool;
  isalnum : char -> bool
}.

Section PdfHandler.

Context {U : Unicode}.

Fixpoint lstrip (s : str) : str :=
  match s with
  | [] => []
  | c :: s' => if isspace c then lstrip s' else s
  end.

Definition rstrip (s : str) : str := rev (lstrip (rev s)).

(** [s.strip()] *)
Definition strip (s : str) : str := rstrip (lstrip s).

(** [re.sub(r'\s+', ' ', text)]: every maximal run of whitespace becomes
    one space. [in_run] tells that the previous character was whitespace. *)
Fixpoint sub_whitespace_runs (text : str) (in_run : bool) : str :=
  match text with
  | [] => []
  | c :: rest =>
      if isspace c
      then (if in_run then sub_whitespace_runs rest true
            else ch " " :: sub_whitespace_runs rest true)
      else c :: sub_whitespace_runs rest false
  end.

(** The character class [\w\s.,!?;:()\-] whose complement the second
    substitution deletes. *)
Definition allowed (c : char) : bool :=
  isalnum c || N.eqb c (ch "_") || isspace c
  || existsb (N.eqb c) (py ".,!?;:()-").

Definition clean_text (text : str) : str :=
  let text := sub_whitespace_runs text false in
  let text := List.filter allowed text in
  strip text.

(** The sentence-boundary search of one loop iteration: [Some sentence_end]
    when the window stops short of the end of the text and its last
    [.], [?] or [!] lies past the halfway point. *)
Definition sentence_break (h : PDFHandler) (text : str) (start : Z) : option Z :=
  let end_ := start + chunk_size h in
  let chunk := slice text start end_ in
  if end_ <? len text then
    let last_period := rfind chunk (ch ".") in
    let last_question := rfind chunk (ch "?") in
    let last_exclamation := rfind chunk (ch "!") in
    let sentence_end := Z.max (Z.max last_period last_question) last_exclamation in
    if chunk_size h / 2 <? sentence_end then Some sentence_end else None
  else None.

(** The chunk and the [end] of one iteration. *)
Definition window (h : PDFHandler) (text : str) (start : Z) : str * Z :=
  let end_ := start + chunk_size h in
  let chunk := slice text start end_ in
  match sentence_break h text start with
  | Some sentence_end => (slice chunk 0 (sentence_end + 1), start + sentence_end + 1)
  | None => (chunk, end_)
  end.

(** [chunk_data], after [chunk_data.update(metadata)]: the caller's keys
    win over the four the chunker sets. *)
Definition chunk_data (metadata : option dict) (chunk : str)
    (start end_ : Z) (n_chunks : nat) : dict :=
  let data : dict :=
    <["chunk_id" := VInt (Z.of_nat n_chunks)]>
      (<["end_pos" := VInt end_]>
        (<["start_pos" := VInt start]>
          {["text" := VStr (strip chunk)]})) in
  match metadata with
  | Some md => if decide (md = ∅) then data else md ∪ data
  | None => data
  end.

(** The [while start < len(text)] loop. Python gives no bound on its
    iterations, so the model counts them down from [fuel]; [None] means
    the budget ran out before the loop condition failed. *)
Fixpoint chunk_loop (fuel : nat) (h : PDFHandler) (text : str)
    (metadata : option dict) (start : Z) (chunks : list dict)
    : option (list dict) :=
  if start <? len text then
    match fuel with
    | O => None
    | S fuel' =>
        let '(chunk, end_) := window h text start in
        let data := chunk_data metadata chunk start end_ (length chunks) in
        chunk_loop fuel' h text metadata (end_ - chunk_overlap h) (chunks ++ [data])
    end
  else Some chunks.

(** The [(start_pos, end_pos)] pairs of the iterations, in order: the
    positions the loop walks through, apart from the chunks it builds. *)
Fixpoint spans (fuel : nat) (h : PDFHandler) (text : str) (start : Z)
    : option (list (Z * Z)) :=
  if start <? len text then
    match fuel with
    | O => None
    | S fuel' =>
        let end_ := snd (window h text start) in
        option_map (cons (start, end_)) (spans fuel' h text (end_ - chunk_overlap h))
    end
  else Some [].

(** The chunk numbered [i] that the loop builds for the span [w]. *)
Definition span_chunk (h : PDFHandler) (text : str) (md : option dict)
    (i : nat) (w : Z * Z) : dict :=
  chunk_data md (fst (window h text (fst w))) (fst w) (snd w) i.

(** The spans follow one another as the loop computes them: each starts
    before the end of the text, ends where its window ends, and hands
    [end - chunk_overlap] to the next; after the last, the loop condition
    fails. *)
Fixpoint chained (h : PDFHandler) (text : str) (start : Z) (ws : list (Z * Z)) : Prop :=
  match ws with
  | [] => len text <= start
  | w :: ws' =>
      fst w = start /\ start < len text /\ snd w = snd (window h text start)
      /\ chained h text (snd w - chunk_overlap h) ws'
  end.

(** Parameters under which every iteration moves the window forward. *)
Definition well_configured (h : PDFHandler) : Prop :=
  0 <= chunk_overlap h /\ chunk_overlap h < chunk_size h
  /\ chunk_overlap h <= chunk_size h / 2 + 1.

Definition chunk_text_fuel (fuel : nat) (h : PDFHandler) (text : str)
    (metadata : option dict) : option (list dict) :=
  chunk_loop fuel h (clean_text text) metadata 0 [].

(** [chunk_text] returns [chunks] when some number of iterations suffices. *)
Definition chunk_text (h : PDFHandler) (text : str) (metadata : option dict)
    (chunks : list dict) : Prop :=
  exists fuel, chunk_text_fuel fuel h text metadata = Some chunks.

(** The span a chunk records. *)
Definition span_of (c : dict) : option (Z * Z) :=
  match c !! "start_pos", c !! "end_pos" with
  | Some (VInt s), Some (VInt e) => Some (s, e)
  | _, _ => None
  end.

(** How many positions of [text] lie in both spans. *)
Definition shared_positions (text : str) (a b : Z * Z) : Z :=
  Z.max 0 (Z.min (Z.min (snd a) (snd b)) (len text) - Z.max (Z.max (fst a) (fst b)) 0).

(** The caller's metadata leaves [key] to the chunker. *)
Definition reserves (metadata : option dict) (key : string) : Prop :=
  match metadata with
  | Some md => md !! key = None
  | None => True
  end.

End PdfHandler.


(** ** Exceptions *)

(** A raised exception: its class name and what [str(e)] gives. *)
Inductive exn : Set :=
| Exn (kind : string) (message : str).

Definition exn_str (e : exn) : str :=
  match e with Exn _ message => message end.

Inductive result (A : Type) : Type :=
| Ok (a : A)
| Raise (e : exn).

Arguments Ok {A} a.
Arguments Raise {A} e.

Definition bind {A B} (r : result A) (k : A -> result B) : result B :=
  match r with
  | Ok a => k a
  | Raise e => Raise e
  end.

Notation "x <- r ;; k" := (bind r (fun x => k))
  (at level 100, r at next level, right associativity).

(** [l[i]] for a Python int [i]: negative indices count from the end. *)
Definition py_index {A} (l : list A) (i : Z) : result A :=
  let j := if i <? 0 then i + len l else i in
  if j <? 0 then Raise (Exn "IndexError" (py "list index out of range"))
  else match l !! Z.to_nat j with
       | Some a => Ok a
       | None => Raise (Exn "IndexError" (py "list index out of range"))
       end.

(** [[f(x) for x in l]] when [f] may raise. *)
Fixpoint comprehension {A B} (f : A -> result B) (l : list A) : result (list B) :=
  match l with
  | [] => Ok []
  | a :: l' => b <- f a ;; bs <- comprehension f l' ;; Ok (b :: bs)
  end.

(** ** vector_db.py *)

(** The three artifacts under [persist_directory]. *)
Inductive artifact : Set := IndexPath | DocsPath | MetaPath.

(** What a path holds: nothing, bytes that do not deserialize, or a value. *)
Inductive file (A : Type) : Type :=
| Absent
| Corrupt
| Stored (a : A).

Arguments Absent {A}.
Arguments Corrupt {A}.
Arguments Stored {A} a.

(** [os.path.exists] *)
Definition exists_ {A} (f : file A) : bool :=
  match f with Absent => false | _ => true end.

(** How one write of [_save] ends: the artifact is replaced, or the write
    raises, either before the old content is touched or after it is lost. *)
Inductive write_outcome : Set := Written | FailsUntouched | FailsTruncated.

Definition no_write_fault (_ : artifact) : write_outcome := Written.
Definition no_remove_fault (_ : artifact) : bool := false.

Definition embedding_dim : nat := 384.

(** The numbers of an embedding and the arithmetic on them, as far as the
    code uses it: the sum, difference and product inside a squared
    distance, the comparison that ranks distances, and the constant 1.
    Floating-point arithmetic is taken as an interface. *)
Class Floats : Type := {
  F : Type;
  fzero : F;
  fone : F;
  fadd : F -> F -> F;
  fsub : F -> F -> F;
  fmul : F -> F -> F;
  fle : F -> F -> bool
}.

Section VectorDb.

Context {FL : Floats}.

Abbreviation vec := (list F).

(** A row of the index: the vector and, as ghost state that no operation
    reads, the chunk whose text was embedded into it. *)
Record row : Type := {
  vector : vec;
  origin : dict
}.

(** A [faiss.IndexFlatL2]: its dimension and its rows in insertion order. *)
Record IndexFlatL2 : Type := {
  dim : nat;
  xb : list row
}.

Definition ntotal (ix : IndexFlatL2) : Z := len (xb ix).

(** Modelled from the spec: [IndexFlatL2.add] of the FAISS library, which is
    not part of the repository. It appends the vectors in order; a vector
    of another dimension is refused before anything is stored. *)
Definition index_add (ix : IndexFlatL2) (rows : list row) : result IndexFlatL2 :=
  if forallb (fun r => Nat.eqb (length (vector r)) (dim ix)) rows
  then Ok {| dim := dim ix; xb := xb ix ++ rows |}
  else Raise (Exn "AssertionError" []).

(** Squared Euclidean distance. *)
Definition l2sqr (u v : vec) : F :=
  fold_left (fun acc p => fadd acc (fmul (fsub (fst p) (snd p)) (fsub (fst p) (snd p))))
            (combine u v) fzero.

Fixpoint insert_by_distance (x : F * Z) (l : list (F * Z)) : list (F * Z) :=
  match l with
  | [] => [x]
  | y :: l' => if fle (fst x) (fst y) then x :: l else y :: insert_by_distance x l'
  end.

(** Distances of the rows to [q], each with its position, from [i] on. *)
Fixpoint scores (q : vec) (rows : list row) (i : Z) : list (F * Z) :=
  match rows with
  | [] => []
  | r :: rows' => (l2sqr q (vector r), i) :: scores q rows' (i + 1)
  end.

(** Modelled from the spec: [IndexFlatL2.search] of the FAISS library, which
    is not part of the repository. Exact nearest-neighbour search by squared
    Euclidean distance: the [k] closest rows in ascending distance, rows at
    equal distance in insertion order (a stable insertion sort). *)
Definition index_search (ix : IndexFlatL2) (q : vec) (k : Z) : result (list F * list Z) :=
  if Nat.eqb (length q) (dim ix) then
    let ranked := foldr insert_by_distance [] (scores q (xb ix) 0) in
    let top := take (Z.to_nat k) ranked in
    Ok (map fst top, map snd top)
  else Raise (Exn "AssertionError" []).

Record VectorDatabase : Type := {
  index : option IndexFlatL2;
  documents : list value;
  metadatas : list dict;
  collection_name : option str
}.

Record Disk : Type := {
  index_file : file IndexFlatL2;
  docs_file : file (list value);
  meta_file : file (list dict)
}.

(** [VectorDatabase.__init__] leaves the collection unloaded. *)
Definition init : VectorDatabase :=
  {| index := None; documents := []; metadatas := []; collection_name := None |}.

Definition empty_disk : Disk :=
  {| index_file := Absent; docs_file := Absent; meta_file := Absent |}.

(** What the remote feature-extraction endpoint may answer. *)
Inductive extraction : Type :=
| FlatList (v : vec)
| NestedList (first : vec) (rest : list vec)
| NdArray (v : vec).

Definition get_embedding (feature_extraction : value -> result extraction)
    (text : value) : result vec :=
  match feature_extraction text with
  | Ok (FlatList v) => Ok v
  | Ok (NestedList first _) => Ok first
  | Ok (NdArray v) => Ok v
  | Raise e => Raise (Exn "Exception" (py "Error getting embedding: " ++ exn_str e))
  end.

(** One remote call per text, in order; [client i] answers the call
    numbered [i] of the batch. *)
Fixpoint get_batch_embeddings (client : nat -> value -> result extraction)
    (i : nat) (texts : list value) : result (list vec) :=
  match texts with
  | [] => Ok []
  | text :: texts' =>
      embedding <- get_embedding (client i) text ;;
      embeddings <- get_batch_embeddings client (S i) texts' ;;
      Ok (embedding :: embeddings)
  end.

Definition load {A} (f : file A) : result A :=
  match f with
  | Stored a => Ok a
  | Corrupt => Raise (Exn "Exception" (py "could not deserialize"))
  | Absent => Raise (Exn "FileNotFoundError" (py "No such file or directory"))
  end.

Definition create_collection (self : VectorDatabase) (disk : Disk)
    (name : str) : VectorDatabase :=
  let fresh :=
    {| index := Some {| dim := embedding_dim; xb := [] |};
       documents := []; metadatas := []; collection_name := Some name |} in
  if exists_ (index_file disk) then
    match (ix <- load (index_file disk) ;;
           docs <- load (docs_file disk) ;;
           metas <- load (meta_file disk) ;;
           Ok (ix, docs, metas)) with
    | Ok (ix, docs, metas) =>
        {| index := Some ix; documents := docs; metadatas := metas;
           collection_name := Some name |}
    | Raise _ => fresh
    end
  else fresh.

(** One write of [_save]: the new content of the path, and whether the
    write raised. *)
Definition write {A} (o : write_outcome) (old : file A) (new : A) : file A * bool :=
  match o with
  | Written => (Stored new, false)
  | FailsUntouched => (old, true)
  | FailsTruncated => (Corrupt, true)
  end.

(** [_save]: the three writes in order inside one [try]; the first that
    raises ends it, and the exception is printed, not re-raised. *)
Definition _save (io : artifact -> write_outcome) (self : VectorDatabase)
    (disk : Disk) : Disk :=
  match index self with
  | None => disk
  | Some ix =>
      let '(f1, raised1) := write (io IndexPath) (index_file disk) ix in
      if raised1 then
        {| index_file := f1; docs_file := docs_file disk; meta_file := meta_file disk |}
      else
        let '(f2, raised2) := write (io DocsPath) (docs_file disk) (documents self) in
        if raised2 then
          {| index_file := f1; docs_file := f2; meta_file := meta_file disk |}
        else
          let '(f3, _) := write (io MetaPath) (meta_file disk) (metadatas self) in
          {| index_file := f1; docs_file := f2; meta_file := f3 |}
  end.

(** The metadata record [add_documents] builds for one chunk. *)
Definition chunk_metadata (chunk : dict) : dict :=
  <["title" := default (VStr (py "Unknown")) (chunk !! "title")]>
    (<["chunk_id" := VStr (py_str (default (VInt 0) (chunk !! "chunk_id")))]>
      {["source" := default (VStr (py "unknown")) (chunk !! "source")]}).

(** [chunk['text']] *)
Definition chunk_text_of (chunk : dict) : result value :=
  match chunk !! "text" with
  | Some v => Ok v
  | None => Raise (Exn "KeyError" (py "'text'"))
  end.

Definition tag (chunk : dict) (embedding : vec) : row :=
  {| vector := embedding; origin := chunk |}.

(** [add_documents]: the state and disk it leaves, and whether it raised.
    Everything that can raise does so before the first container grows. *)
Definition add_documents (self : VectorDatabase) (disk : Disk)
    (chunks : list dict) (name : str)
    (client : nat -> value -> result extraction)
    (io : artifact -> write_outcome) : VectorDatabase * Disk * result unit :=
  let self := match index self with
              | None => create_collection self disk name
              | Some _ => self
              end in
  match (texts <- comprehension chunk_text_of chunks ;;
         embeddings <- get_batch_embeddings client O texts ;;
         ix <- match index self with
               | Some ix => index_add ix (zip_with tag chunks embeddings)
               | None => Raise (Exn "AttributeError" [])
               end ;;
         Ok (texts, ix)) with
  | Ok (texts, ix) =>
      let self :=
        {| index := Some ix;
           documents := documents self ++ texts;
           metadatas := metadatas self ++ map chunk_metadata chunks;
           collection_name := collection_name self |} in
      (self, _save io self disk, Ok tt)
  | Raise e => (self, disk, Raise e)
  end.

(** The dictionary [query] returns, by its three keys. *)
Record QueryResult : Type := {
  results_docs : list value;
  results_meta : list dict;
  results_dist : list F
}.

Definition query (self : VectorDatabase)
    (feature_extraction : value -> result extraction)
    (query_text : str) (n_results : Z) : result QueryResult :=
  match index self with
  | None => Ok {| results_docs := []; results_meta := []; results_dist := [] |}
  | Some ix =>
      if len (documents self) =? 0
      then Ok {| results_docs := []; results_meta := []; results_dist := [] |}
      else
        query_embedding <- get_embedding feature_extraction (VStr query_text) ;;
        let n_results := Z.min n_results (len (documents self)) in
        found <- index_search ix query_embedding n_results ;;
        let '(distances, indices) := found in
        docs <- comprehension (py_index (documents self)) indices ;;
        metas <- comprehension (py_index (metadatas self)) indices ;;
        Ok {| results_docs := docs; results_meta := metas; results_dist := distances |}
  end.

(** [os.remove] inside [delete_collection]: [rm a] tells that removing
    artifact [a] raises. *)
Definition remove {A} (raises : bool) (f : file A) : file A * bool :=
  if exists_ f then (if raises then (f, true) else (Absent, false))
  else (f, false).

(** [delete_collection]: the removals and the clearing of the containers
    share one [try]; a removal that raises skips the rest, and the
    exception is printed, not re-raised. *)
Definition delete_collection (self : VectorDatabase) (disk : Disk)
    (name : str) (rm : artifact -> bool) : VectorDatabase * Disk :=
  let '(f1, raised1) := remove (rm IndexPath) (index_file disk) in
  if raised1 then
    (self, {| index_file := f1; docs_file := docs_file disk; meta_file := meta_file disk |})
  else
    let '(f2, raised2) := remove (rm DocsPath) (docs_file disk) in
    if raised2 then
      (self, {| index_file := f1; docs_file := f2; meta_file := meta_file disk |})
    else
      let '(f3, raised3) := remove (rm MetaPath) (meta_file disk) in
      let disk := {| index_file := f1; docs_file := f2; meta_file := f3 |} in
      if raised3 then (self, disk)
      else ({| index := None; documents := []; metadatas := [];
               collection_name := None |}, disk).

Definition get_collection_count (self : VectorDatabase) : Z :=
  len (documents self).

Definition reset_database (self : VectorDatabase) (disk : Disk)
    (rm : artifact -> bool) : VectorDatabase * Disk :=
  delete_collection self disk (py "documents") rm.

(** The public calls, each with what the environment answers during it. *)
Inductive call : Type :=
| CreateCollection (name : str)
| AddDocuments (chunks : list dict) (name : str)
    (client : nat -> value -> result extraction) (io : artifact -> write_outcome)
| Query (query_text : str) (n_results : Z)
    (feature_extraction : value -> result extraction)
| DeleteCollection (name : str) (rm : artifact -> bool)
| ResetDatabase (rm : artifact -> bool).

Definition step (s : VectorDatabase * Disk) (c : call) : VectorDatabase * Disk :=
  let '(self, disk) := s in
  match c with
  | CreateCollection name => (create_collection self disk name, disk)
  | AddDocuments chunks name client io =>
      fst (add_documents self disk chunks name client io)
  | Query _ _ _ => (self, disk)
  | DeleteCollection name rm => delete_collection self disk name rm
  | ResetDatabase rm => reset_database self disk rm
  end.

Definition run (s : VectorDatabase * Disk) (calls : list call) : VectorDatabase * Disk :=
  fold_left step calls s.

(** *** Alignment of the three containers *)

(** The document text a row was embedded from. *)
Definition row_text (r : row) : value := default VNone (origin r !! "text").

(** What the documents list holds for a chunk: [chunk['text']]. *)
Definition text_of (chunk : dict) : value := default VNone (chunk !! "text").

(** The chunk was handed to the [add_documents] call [c] as entry [n] of
    its batch, and the remote call numbered [n] of that batch answered the
    vector [v] for the text of the chunk. *)
Definition embedded_during (c : call) (chunk : dict) (v : vec) : Prop :=
  match c with
  | AddDocuments chunks _ client _ =>
      exists n : nat,
        chunks !! n = Some chunk /\ get_embedding (client n) (text_of chunk) = Ok v
  | _ => False
  end.

(** The chunks with their vectors that the collection can hold: those
    [stored] in the persist directory at the start, and those that enter
    during one of the calls. *)
Definition entered (stored : dict -> vec -> Prop) (calls : list call)
    (chunk : dict) (v : vec) : Prop :=
  stored chunk v \/ Exists (fun c => embedded_during c chunk v) calls.

(** Position by position, one chunk accounts for the document, the
    metadata record and the vector: the document is its text, the record
    is the one built from it, and the vector of the index row is one that
    [known] relates to it. An unloaded collection holds nothing. *)
Definition aligned (known : dict -> vec -> Prop) (self : VectorDatabase) : Prop :=
  match index self with
  | Some ix =>
      exists chunks : list dict,
        documents self = map text_of chunks
        /\ metadatas self = map chunk_metadata chunks
        /\ Forall2 (fun chunk r => known chunk (vector r)) chunks (xb ix)
  | None => documents self = [] /\ metadatas self = []
  end.

(** [len(documents) == len(metadatas) == index.ntotal], an unloaded index
    counting as empty. *)
Definition counts_agree (self : VectorDatabase) : Prop :=
  len (documents self) = len (metadatas self)
  /\ len (documents self) = match index self with Some ix => ntotal ix | None => 0 end.

(** The artifacts on disk, when all three can be loaded, are aligned. *)
Definition disk_aligned (known : dict -> vec -> Prop) (disk : Disk) : Prop :=
  match index_file disk, docs_file disk, meta_file disk with
  | Stored ix, Stored docs, Stored metas =>
      aligned known {| index := Some ix; documents := docs; metadatas := metas;
                       collection_name := None |}
  | _, _, _ => True
  end.

(** [delete_collection] meets a removal that raises: one of the three
    artifacts is there and [os.remove] fails on it. *)
Definition removal_fails (disk : Disk) (rm : artifact -> bool) : bool :=
  exists_ (index_file disk) && rm IndexPath
  || exists_ (docs_file disk) && rm DocsPath
  || exists_ (meta_file disk) && rm MetaPath.

(** No write of [_save] fails during the call. *)
Definition saves_complete (c : call) : Prop :=
  match c with
  | AddDocuments _ _ _ io => forall a, io a = Written
  | _ => True
  end.

(** *** Ranking *)

(** [a] is returned before [b]: it is closer, or as close and inserted
    earlier. Each is a distance with the position of its row. *)
Definition ranks_before (a b : F * Z) : Prop :=
  fle (fst a) (fst b) = true /\ (fle (fst b) (fst a) = true -> snd a < snd b).

(** The distance and position of every row of the index. *)
Definition candidates (ix : IndexFlatL2) (q : vec) : list (F * Z) :=
  scores q (xb ix) 0.

End VectorDb.

(** ** chat_bot.py *)

Section ChatBot.

Context {U : Unicode} {FL : Floats}.

(** A value of a source record: a metadata value or a relevance score. *)
Inductive svalue : Type :=
| SVal (v : value)
| SNum (x : F).

Abbreviation source := (gmap string svalue).

(** A value of the record [answer_question] returns. *)
Inductive rvalue : Type :=
| RStr (s : str)
| RInt (z : Z)
| RSources (l : list source).

Abbreviation answer_record := (gmap string rvalue).

(** What the remote chat endpoint may answer: an object with [choices]
    (each holding a message content, possibly [None]), a dictionary
    (with or without [choices], [message], [content]), or anything else;
    [repr] is what [str(response)] gives. *)
Inductive completion : Type :=
| ChoicesObject (contents : list (option str)) (repr : str)
| ChoicesDict (choices : option (list (option (option str))))
| OtherResponse (repr : str).

Definition generate_response (chat_completion : str -> Z -> result completion)
    (prompt : str) (max_length : Z) : result str :=
  match (response <- chat_completion prompt max_length ;;
         match response with
         | ChoicesObject (Some content :: _) _ => Ok (strip content)
         | ChoicesObject (None :: _) _ =>
             Raise (Exn "AttributeError" (py "'NoneType' object has no attribute 'strip'"))
         | ChoicesObject [] repr => Ok (strip repr)
         | ChoicesDict None => Ok (strip [])
         | ChoicesDict (Some []) =>
             Raise (Exn "IndexError" (py "list index out of range"))
         | ChoicesDict (Some (Some (Some content) :: _)) => Ok (strip content)
         | ChoicesDict (Some (_ :: _)) => Ok (strip [])
         | OtherResponse repr => Ok (strip repr)
         end) with
  | Ok text => Ok text
  | Raise e => Raise (Exn "Exception" (py "Error generating response: " ++ exn_str e))
  end.

(** [sep.join(parts)] *)
Fixpoint join (sep : str) (parts : list str) : str :=
  match parts with
  | [] => []
  | [part] => part
  | part :: parts' => part ++ sep ++ join sep parts'
  end.

Definition newline : char := 10%N.
Definition quote : char := 34%N.

Definition create_rag_prompt (question : str) (context_docs : list value) : str :=
  let context :=
    join [newline; newline]
      (imap (fun i doc => py "Document " ++ py_str (VInt (Z.of_nat i + 1))
                          ++ py ":" ++ [newline] ++ py_str doc)
            context_docs) in
  py "You are a helpful AI assistant. Answer the question based ONLY on the provided context. If the answer cannot be found in the context, say "
  ++ [quote]
  ++ py "I don't have enough information to answer this question based on the provided documents."
  ++ [quote; newline; newline]
  ++ py "Context:" ++ [newline] ++ context ++ [newline; newline]
  ++ py "Question: " ++ question ++ [newline; newline]
  ++ py "Provide a clear, concise answer based on the context above.".

(** One element of [sources], for the document and metadata at position
    [i] of the search results. *)
Definition source_of (distances : list F) (i : nat) (doc : value)
    (metadata : dict) : result source :=
  text <- match doc with
          | VStr s => Ok s
          | VInt _ => Raise (Exn "TypeError" (py "object of type 'int' has no len()"))
          | VNone => Raise (Exn "TypeError" (py "object of type 'NoneType' has no len()"))
          end ;;
  let text_preview := if 200 <? len text then slice text 0 200 ++ py "..." else text in
  distance <- py_index distances (Z.of_nat i) ;;
  Ok (<["relevance_score" := SNum (fsub fone distance)]>
       (<["text_preview" := SVal (VStr text_preview)]>
         (<["title" := SVal (default (VStr (py "Unknown")) (metadata !! "title"))]>
           (<["source" := SVal (default (VStr (py "Unknown")) (metadata !! "source"))]>
             {["chunk_id" := SVal (default (VInt (Z.of_nat i)) (metadata !! "chunk_id"))]})))).

(** The loop over [enumerate(zip(documents, metadatas))], from position [i]. *)
Fixpoint prepare_sources (distances : list F) (i : nat) (docs : list value)
    (metas : list dict) : result (list source) :=
  match docs, metas with
  | doc :: docs', metadata :: metas' =>
      s <- source_of distances i doc metadata ;;
      ss <- prepare_sources distances (S i) docs' metas' ;;
      Ok (s :: ss)
  | _, _ => Ok []
  end.

Definition no_documents_answer : answer_record :=
  <["sources" := RSources []]>
    {["answer" := RStr (py "No documents found in the database. Please upload a PDF first.")]}.

(** The body of the [try] in [answer_question]. *)
Definition answer_question_try (vector_db : VectorDatabase)
    (feature_extraction : value -> result extraction)
    (chat_completion : str -> Z -> result completion)
    (question : str) (n_context_docs : Z) : result answer_record :=
  search_results <- query vector_db feature_extraction question n_context_docs ;;
  match results_docs search_results with
  | [] => Ok no_documents_answer
  | _ :: _ =>
      let context_docs := results_docs search_results in
      let prompt := create_rag_prompt question context_docs in
      answer <- generate_response chat_completion prompt 500 ;;
      sources <- prepare_sources (results_dist search_results) O
                   (results_docs search_results) (results_meta search_results) ;;
      Ok (<["context_used" := RInt (len context_docs)]>
           (<["sources" := RSources sources]>
             {["answer" := RStr answer]}))
  end.

(** The record built by the [except Exception as e] clause. *)
Definition error_answer (e : exn) : answer_record :=
  <["error" := RStr (exn_str e)]>
    (<["sources" := RSources []]>
      {["answer" := RStr (py "Error generating answer: " ++ exn_str e)]}).

Definition answer_question (vector_db : VectorDatabase)
    (feature_extraction : value -> result extraction)
    (chat_completion : str -> Z -> result completion)
    (question : str) (n_context_docs : Z) : answer_record :=
  match answer_question_try vector_db feature_extraction chat_completion
          question n_context_docs with
  | Ok answer => answer
  | Raise e => error_answer e
  end.

End ChatBot.

(** ** pdf_handler.py: extraction and the pipeline *)

(** What [PyPDF2.PdfReader] gives for an opened file: for each page what
    [extract_text] returns or raises, and the document information
    dictionary, [None] when the file has none. *)
Record PdfReader : Type := {
  pages : list (result str);
  reader_metadata : option dict
}.

(** The [metadata] entry of the extraction result. *)
Record PdfInfo : Type := {
  num_pages : Z;
  title : value;
  author : value
}.

(** The dictionary [extract_text_from_pdf] returns, by its three keys. *)
Record Extraction : Type := {
  full_text : str;
  page_texts : list (Z * str);
  extracted_metadata : PdfInfo
}.

(** [pdf_reader.metadata.get(field, 'Unknown') if pdf_reader.metadata else
    'Unknown'] *)
Definition info_field (pdf_reader : PdfReader) (field : string) : value :=
  match reader_metadata pdf_reader with
  | Some md =>
      if decide (md = ∅) then VStr (py "Unknown")
      else default (VStr (py "Unknown")) (md !! field)
  | None => VStr (py "Unknown")
  end.

(** The loop over [enumerate(pdf_reader.pages)], from page [page_num]. *)
Fixpoint extract_pages (rest : list (result str)) (page_num : nat)
    (text : str) (texts : list (Z * str)) : result (str * list (Z * str)) :=
  match rest with
  | [] => Ok (text, texts)
  | page :: rest' =>
      page_text <- page ;;
      extract_pages rest' (S page_num)
        (text ++ [10%N] ++ py "--- Page " ++ py_str (VInt (Z.of_nat page_num + 1))
              ++ py " ---" ++ [10%N] ++ page_text)
        (texts ++ [(Z.of_nat page_num + 1, page_text)])
  end.

Definition extract_text_from_pdf (open_pdf : str -> result PdfReader)
    (pdf_path : str) : result Extraction :=
  match (pdf_reader <- open_pdf pdf_path ;;
         let info :=
           {| num_pages := len (pages pdf_reader);
              title := info_field pdf_reader "/Title";
              author := info_field pdf_reader "/Author" |} in
         extracted <- extract_pages (pages pdf_reader) O [] [] ;;
         Ok {| full_text := fst extracted; page_texts := snd extracted;
               extracted_metadata := info |}) with
  | Ok extraction => Ok extraction
  | Raise e => Raise (Exn "Exception" (py "Error extracting text from PDF: " ++ exn_str e))
  end.

(** The metadata [process_pdf] hands to [chunk_text]. *)
Definition pdf_chunk_metadata (pdf_path : str) (info : PdfInfo) : dict :=
  <["title" := title info]>
    (<["num_pages" := VInt (num_pages info)]>
      {["source" := VStr pdf_path]}).

Section Pipeline.

Context {U : Unicode}.

(** [process_pdf], its chunking loop counted down from [fuel]; [None]
    means that the budget ran out. *)
Definition process_pdf_fuel (fuel : nat) (h : PDFHandler)
    (open_pdf : str -> result PdfReader) (pdf_path : str)
    : option (result (list dict)) :=
  match extract_text_from_pdf open_pdf pdf_path with
  | Ok extraction_result =>
      option_map Ok
        (chunk_text_fuel fuel h (full_text extraction_result)
           (Some (pdf_chunk_metadata pdf_path (extracted_metadata extraction_result))))
  | Raise e => Some (Raise e)
  end.

(** [process_pdf] ends with [outcome] when some number of iterations
    suffices. *)
Definition process_pdf (h : PDFHandler) (open_pdf : str -> result PdfReader)
    (pdf_path : str) (outcome : result (list dict)) : Prop :=
  exists fuel, process_pdf_fuel fuel h open_pdf pdf_path = Some outcome.

End Pipeline.

(** ** database.py, as far as main.py calls it *)

(** Each method of [Database] runs its SQL statement and commit inside a
    [try] and re-raises what went wrong as an Exception with its own
    prefix; [executed] is how the statement and the commit ended. *)
Definition reraise {A} (prefix : string) (executed : result A) : result A :=
  match executed with
  | Ok a => Ok a
  | Raise e => Raise (Exn "Exception" (py prefix ++ exn_str e))
  end.

Definition add_document (executed : result unit) : result unit :=
  reraise "Error adding document: " executed.

Definition add_chat_message (executed : result unit) : result unit :=
  reraise "Error adding chat message: " executed.

Definition clear_history (executed : result unit) : result unit :=
  reraise "Error clearing history: " executed.

(** ** main.py *)

(** What an endpoint answers: a body, or the [HTTPException] it raises. *)
Inductive http_result (A : Type) : Type :=
| Respond (content : A)
| HTTPException (status_code : Z) (detail : str).

Arguments Respond {A} content.
Arguments HTTPException {A} status_code detail.

(** [s.endswith(suffix)] *)
Definition endswith (s suffix : str) : bool :=
  bool_decide (drop (length s - length suffix) s = suffix).

Section Main.

Context {U : Unicode} {FL : Floats}.

(** What the web framework and the operating system fix: the text of
    [str(e)] for an [HTTPException] with a status and a detail, and
    [os.path.join]. *)
Variable http_exception_str : Z -> str -> str.
Variable os_path_join : str -> str -> str.

(** The module-level [SESSION_ID], a random UUID drawn at start. *)
Variable SESSION_ID : str.

(** The body of the [try] of [upload_pdf], its chunking counted down
    from [fuel]: the state of the vector database it leaves and what it
    returns or raises. [save_upload] is how writing the uploaded bytes to
    a path ends, [recorded] how the insert of the document row ends. *)
Definition upload_pdf_try (fuel : nat) (s : VectorDatabase * Disk) (filename : str)
    (save_upload : str -> result unit) (open_pdf : str -> result PdfReader)
    (client : nat -> value -> result extraction) (io : artifact -> write_outcome)
    (recorded : result unit) : option (VectorDatabase * Disk * result dict) :=
  if negb (endswith filename (py ".pdf")) then
    Some (s, Raise (Exn "HTTPException"
                      (http_exception_str 400 (py "Only PDF files are allowed"))))
  else
    let file_path := os_path_join (py "uploads") filename in
    match save_upload file_path with
    | Raise e => Some (s, Raise e)
    | Ok _ =>
        match process_pdf_fuel fuel default_handler open_pdf file_path with
        | None => None
        | Some (Raise e) => Some (s, Raise e)
        | Some (Ok chunks) =>
            let self := create_collection (fst s) (snd s) (py "documents") in
            match add_documents self (snd s) chunks (py "documents") client io with
            | (self, disk, Raise e) => Some (self, disk, Raise e)
            | (self, disk, Ok _) =>
                match add_document recorded with
                | Raise e => Some (self, disk, Raise e)
                | Ok _ =>
                    Some (self, disk,
                          Ok (<["status" := VStr (py "success")]>
                               (<["num_chunks" := VInt (len chunks)]>
                                 (<["filename" := VStr filename]>
                                   {["message" :=
                                       VStr (py "PDF uploaded and processed successfully")]}))))
                end
            end
        end
    end.

(** [upload_pdf]: whatever the [try] raises, its own [HTTPException]
    included, is raised again as a 500. *)
Definition upload_pdf_fuel (fuel : nat) (s : VectorDatabase * Disk) (filename : str)
    (save_upload : str -> result unit) (open_pdf : str -> result PdfReader)
    (client : nat -> value -> result extraction) (io : artifact -> write_outcome)
    (recorded : result unit) : option (VectorDatabase * Disk * http_result dict) :=
  match upload_pdf_try fuel s filename save_upload open_pdf client io recorded with
  | None => None
  | Some (s', Ok content) => Some (s', Respond content)
  | Some (s', Raise e) =>
      Some (s', HTTPException 500 (py "Error processing PDF: " ++ exn_str e))
  end.

Definition upload_pdf (s : VectorDatabase * Disk) (filename : str)
    (save_upload : str -> result unit) (open_pdf : str -> result PdfReader)
    (client : nat -> value -> result extraction) (io : artifact -> write_outcome)
    (recorded : result unit)
    (outcome : VectorDatabase * Disk * http_result dict) : Prop :=
  exists fuel,
    upload_pdf_fuel fuel s filename save_upload open_pdf client io recorded = Some outcome.

(** The [QuestionResponse] model. *)
Record QuestionResponse : Type := {
  response_answer : str;
  response_sources : list (gmap string svalue);
  response_session_id : str
}.

(** [ask_question]: [session_id] is the optional field of the request,
    [recorded] how the insert of the chat message ends. *)
Definition ask_question (vector_db : VectorDatabase)
    (feature_extraction : value -> result extraction)
    (chat_completion : str -> Z -> result completion)
    (question : str) (session_id : option str) (recorded : result unit)
    : http_result QuestionResponse :=
  match (let session_id := match session_id with
                           | Some (c :: id) => c :: id
                           | _ => SESSION_ID
                           end in
         let result_ := answer_question vector_db feature_extraction chat_completion
                          question 3 in
         bot_response <- match result_ !! "answer" with
                         | Some answer => Ok answer
                         | None => Raise (Exn "KeyError" (py "'answer'"))
                         end ;;
         _ <- add_chat_message recorded ;;
         answer <- match bot_response with
                   | RStr answer => Ok answer
                   | _ => Raise (Exn "ValidationError" (py "answer"))
                   end ;;
         sources <- match result_ !! "sources" with
                    | Some (RSources sources) => Ok sources
                    | Some _ => Raise (Exn "ValidationError" (py "sources"))
                    | None => Ok []
                    end ;;
         Ok {| response_answer := answer; response_sources := sources;
               response_session_id := session_id |}) with
  | Ok response => Respond response
  | Raise e => HTTPException 500 (py "Error answering question: " ++ exn_str e)
  end.

(** [clear_database]: the reset of the vector database, then the
    clearing of the chat history; [cleared] is how the latter ends. *)
Definition clear_database (s : VectorDatabase * Disk) (rm : artifact -> bool)
    (cleared : result unit) : VectorDatabase * Disk * http_result dict :=
  let s' := reset_database (fst s) (snd s) rm in
  match clear_history cleared with
  | Ok _ =>
      (s', Respond (<["status" := VStr (py "success")]>
                     {["message" := VStr (py "Database cleared successfully")]}))
  | Raise e => (s', HTTPException 500 (py "Error clearing database: " ++ exn_str e))
  end.

Definition health_check (s : VectorDatabase * Disk) : dict :=
  <["vector_db_count" := VInt (get_collection_count (fst s))]>
    {["status" := VStr (py "healthy")]}.

End Main.

(** ** Instances for running the model *)

(** The ASCII range of the two classifications. *)
Definition ascii_isspace (c : char) : bool :=
  ((9 <=? c) && (c <=? 13) || (28 <=? c) && (c <=? 32))%N.

Definition ascii_isalnum (c : char) : bool :=
  ((48 <=? c) && (c <=? 57) || (65 <=? c) && (c <=? 90)
   || (97 <=? c) && (c <=? 122))%N.

Definition ascii_unicode : Unicode :=
  {| isspace := ascii_isspace; isalnum := ascii_isalnum |}.

(** Exact integer arithmetic in place of floating point. *)
Definition Z_floats : Floats :=
  {| F := Z; fzero := 0; fone := 1;
     fadd := Z.add; fsub := Z.sub; fmul := Z.mul; fle := Z.leb |}.

(** A remote embedding service that always answers, with a vector of the
    fixed dimension. *)
Definition steady_client : value -> result (extraction (FL := Z_floats)) :=
  fun _ => Ok (FlatList (FL := Z_floats) (repeat 0 embedding_dim)).

Definition chunk_a : dict :=
  <["chunk_id" := VInt 0]> (<["source" := VStr (py "a.pdf")]> {["text" := VStr (py "alpha")]}).

Definition chunk_b : dict :=
  <["chunk_id" := VInt 1]> (<["source" := VStr (py "a.pdf")]> {["text" := VStr (py "beta")]}).

(** The second write of [_save] raises before touching the old file. *)
Definition docs_write_fails (a : artifact) : write_outcome :=
  match a with DocsPath => FailsUntouched | _ => Written end.

(** Removing the index file raises. *)
Definition index_remove_fails (a : artifact) : bool :=
  match a with IndexPath => true | _ => false end.

(** Two uploads, the second with a failed write, then a reload. *)
Definition misaligning_calls : list (call (FL := Z_floats)) :=
  [ AddDocuments [chunk_a] (py "documents") (fun _ => steady_client) no_write_fault;
    AddDocuments [chunk_b] (py "documents") (fun _ => steady_client) docs_write_fails;
    CreateCollection (py "documents") ].

(** Two uploads and a reload, every write succeeding. *)
Definition steady_calls : list (call (FL := Z_floats)) :=
  [ AddDocuments [chunk_a] (py "documents") (fun _ => steady_client) no_write_fault;
    AddDocuments [chunk_b] (py "documents") (fun _ => steady_client) no_write_fault;
    CreateCollection (py "documents");
    Query (py "alpha") 3 steady_client;
    ResetDatabase no_remove_fault;
    AddDocuments [chunk_b] (py "documents") (fun _ => steady_client) no_write_fault ].

(** A remote embedding service that tells texts apart: the first
    coordinate of its answer is the length of the text. *)
Definition measuring_client : value -> result (extraction (FL := Z_floats)) :=
  fun text =>
    Ok (FlatList (FL := Z_floats)
          (match text with VStr s => len s | _ => 0 end :: repeat 0 (embedding_dim - 1))).

(** An upload of two chunks, a reload, a removal that fails, and a
    second upload, every write succeeding. *)
Definition measured_calls : list (call (FL := Z_floats)) :=
  [ AddDocuments [chunk_a; chunk_b] (py "documents") (fun _ => measuring_client)
      no_write_fault;
    CreateCollection (py "documents");
    ResetDatabase index_remove_fails;
    Query (py "alpha") 3 measuring_client;
    AddDocuments [chunk_b] (py "documents") (fun _ => measuring_client) no_write_fault ].

(** A loaded collection of four one-dimensional vectors; seen from the
    origin, the rows at positions 1, 2 and 3 are equally close. *)
Definition tiny_index : IndexFlatL2 (FL := Z_floats) :=
  {| dim := 1;
     xb := [ tag (FL := Z_floats) chunk_a [3]; tag (FL := Z_floats) chunk_b [1];
             tag (FL := Z_floats) chunk_a [-1]; tag (FL := Z_floats) chunk_b [1] ] |}.

Definition tiny_db : VectorDatabase (FL := Z_floats) :=
  {| index := Some tiny_index;
     documents := map row_text (xb tiny_index);
     metadatas := map (fun r => chunk_metadata (origin r)) (xb tiny_index);
     collection_name := Some (py "documents") |}.

(** A remote embedding service that places every text at the origin. *)
Definition origin_client : value -> result (extraction (FL := Z_floats)) :=
  fun _ => Ok (NdArray (FL := Z_floats) [0]).

(** A remote embedding service that is down. *)
Definition failing_client : value -> result (extraction (FL := Z_floats)) :=
  fun _ => Raise (Exn "HfHubHTTPError" (py "503")).

(** A chat endpoint that answers with one choice. *)
Definition steady_chat : str -> Z -> result completion :=
  fun _ _ => Ok (ChoicesObject [Some (py " Alpha. ")] []).

(** A readable PDF of two pages with a title. *)
Definition two_page_reader : PdfReader :=
  {| pages := [Ok (py "Hello world. "); Ok (py "Second page.")];
     reader_metadata := Some {["/Title" := VStr (py "Greetings")]} |}.

(** 600 letters, a full stop, 600 more letters. *)
Definition text_with_sentence : str :=
  repeat (ch "a") 600 ++ [ch "."] ++ repeat (ch "b") 600.

(** Joining paths with a slash, and an [HTTPException] printed as
    its status and its detail. *)
Definition posix_join (a b : str) : str := a ++ py "/" ++ b.

Definition status_and_detail (status_code : Z) (detail : str) : str :=
  py_str (VInt status_code) ++ py ": " ++ detail.

(** The chunks of the two-page PDF uploaded as a.pdf, and what adding
    them to a fresh database on an empty disk leaves. *)
Definition demo_chunks : list dict :=
  match process_pdf_fuel (U := ascii_unicode) 10 default_handler
          (fun _ => Ok two_page_reader) (posix_join (py "uploads") (py "a.pdf")) with
  | Some (Ok chunks) => chunks
  | _ => []
  end.

Definition demo_added : VectorDatabase (FL := Z_floats) * Disk (FL := Z_floats) :=
  fst (add_documents (FL := Z_floats)
         (create_collection init empty_disk (py "documents")) empty_disk demo_chunks
         (py "documents") (fun _ => steady_client) no_write_fault).

(** A text of 900 letters: no whitespace, no sentence end. *)
Definition text900 : str := repeat (ch "a") 900.

(** * Properties *)

(** Looks a literal key up in a dictionary built by inserts. *)
Ltac dict_lookup :=
  repeat (rewrite lookup_insert_ne by done);
  first [apply lookup_insert_eq | apply lookup_singleton_eq].

(** ** The chunker *)

Section ChunkerFacts.

Context {U : Unicode}.

Lemma lstrip_snoc (l : str) (c : char) :
  isspace c = false -> lstrip (l ++ [c]) = lstrip l ++ [c].
Proof.
  intros Hc. induction l as [|x l IH]; simpl.
  - now rewrite Hc.
  - destruct (isspace x); [exact IH | reflexivity].
Qed.

Lemma lstrip_fixed (c : char) (s : str) :
  isspace c = false -> lstrip (c :: s) = c :: s.
Proof. intros Hc. simpl. now rewrite Hc. Qed.

Lemma lstrip_head (s : str) :
  lstrip s = [] \/ exists c s', lstrip s = c :: s' /\ isspace c = false.
Proof.
  induction s as [|x s IH]; simpl; [now left|].
  destruct (isspace x) eqn:Hx; [exact IH|].
  right. now exists x, s.
Qed.

Lemma lstrip_idem (s : str) : lstrip (lstrip s) = lstrip s.
Proof.
  destruct (lstrip_head s) as [-> | (c & s' & -> & Hc)]; [reflexivity|].
  now apply lstrip_fixed.
Qed.

Lemma rstrip_idem (s : str) : rstrip (rstrip s) = rstrip s.
Proof. unfold rstrip. now rewrite rev_involutive, lstrip_idem. Qed.

Lemma rstrip_keeps_head (c : char) (s : str) :
  isspace c = false -> exists s', rstrip (c :: s) = c :: s'.
Proof.
  intros Hc. unfold rstrip. simpl rev.
  rewrite (lstrip_snoc _ _ Hc), rev_app_distr. simpl. eauto.
Qed.

(** Stripping a stripped string changes nothing. *)
Lemma strip_idem (s : str) : strip (strip s) = strip s.
Proof.
  unfold strip.
  destruct (lstrip_head s) as [-> | (c & s' & -> & Hc)]; [reflexivity|].
  destruct (rstrip_keeps_head c s' Hc) as [t Ht].
  rewrite Ht, (lstrip_fixed _ _ Hc), <- Ht. apply rstrip_idem.
Qed.

Lemma strip_clean_text (text : str) : strip (clean_text text) = clean_text text.
Proof. unfold clean_text. apply strip_idem. Qed.

Lemma len_nonneg {A} (l : list A) : 0 <= len l.
Proof. unfold len. lia. Qed.

Lemma slice_whole {A} (l : list A) (hi : Z) : len l <= hi -> slice l 0 hi = l.
Proof.
  intros H. pose proof (len_nonneg l) as Hl. unfold slice, clamp_index.
  replace (0 <? 0) with false by reflexivity.
  destruct (hi <? 0) eqn:Hhi; [apply Z.ltb_lt in Hhi; lia|].
  rewrite (Z.min_l 0) by lia. rewrite (Z.min_r hi) by lia.
  simpl. rewrite drop_0. apply take_ge. unfold len. lia.
Qed.

Lemma chunk_loop_eq (fuel : nat) h text md start chunks :
  chunk_loop fuel h text md start chunks =
  if start <? len text then
    match fuel with
    | O => None
    | S fuel' =>
        chunk_loop fuel' h text md (snd (window h text start) - chunk_overlap h)
          (chunks ++ [chunk_data md (fst (window h text start)) start
                        (snd (window h text start)) (length chunks)])
    end
  else Some chunks.
Proof. destruct fuel; simpl; [reflexivity|]. now destruct (window h text start). Qed.

Lemma spans_eq (fuel : nat) h text start :
  spans fuel h text start =
  if start <? len text then
    match fuel with
    | O => None
    | S fuel' =>
        option_map (cons (start, snd (window h text start)))
          (spans fuel' h text (snd (window h text start) - chunk_overlap h))
    end
  else Some [].
Proof. destruct fuel; reflexivity. Qed.

(** More iterations allowed never change a result already reached. *)
Lemma chunk_loop_fuel_mono (fuel fuel' : nat) h text md start chunks r :
  (fuel <= fuel')%nat ->
  chunk_loop fuel h text md start chunks = Some r ->
  chunk_loop fuel' h text md start chunks = Some r.
Proof.
  revert fuel' start chunks. induction fuel as [|fuel IH]; intros fuel' start chunks Hle.
  - rewrite !chunk_loop_eq. destruct (start <? len text); [discriminate|]. 
    now destruct fuel'.
  - rewrite (chunk_loop_eq (S fuel)), (chunk_loop_eq fuel').
    destruct (start <? len text); [|trivial].
    destruct fuel' as [|fuel']; [lia|]. apply IH. lia.
Qed.

(** [chunk_text] has at most one result. *)
Lemma chunk_text_deterministic h text md r r' :
  chunk_text h text md r -> chunk_text h text md r' -> r = r'.
Proof.
  intros [f Hf] [f' Hf']. unfold chunk_text_fuel in *.
  apply (chunk_loop_fuel_mono f (Nat.max f f')) in Hf; [|lia].
  apply (chunk_loop_fuel_mono f' (Nat.max f f')) in Hf'; [|lia].
  congruence.
Qed.

Lemma chunk_loop_spans (fuel : nat) h text md start chunks :
  chunk_loop fuel h text md start chunks =
  option_map (fun ws => chunks ++ imap (fun i => span_chunk h text md (length chunks + i)) ws)
             (spans fuel h text start).
Proof.
  revert start chunks. induction fuel as [|fuel IH]; intros start chunks;
    rewrite chunk_loop_eq, spans_eq; destruct (start <? len text); simpl;
    try reflexivity; try now rewrite app_nil_r.
  rewrite IH. destruct (spans fuel h text _) as [ws|]; simpl; [|reflexivity].
  f_equal. rewrite <- app_assoc. f_equal. simpl. unfold span_chunk at 2. simpl.
  rewrite Nat.add_0_r. f_equal. apply imap_ext. intros i w _. simpl.
  rewrite length_app. simpl. f_equal. lia.
Qed.

Lemma sentence_break_Some h text start se :
  sentence_break h text start = Some se ->
  chunk_size h / 2 < se /\ start + chunk_size h < len text.
Proof.
  unfold sentence_break.
  destruct (start + chunk_size h <? len text) eqn:He; [|discriminate].
  match goal with |- context [?a <? ?b] => destruct (a <? b) eqn:Hs end; [|discriminate].
  intros Heq. apply (inj Some) in Heq. subst se.
  apply Z.ltb_lt in He, Hs. lia.
Qed.

Lemma window_end h text start :
  snd (window h text start) =
  match sentence_break h text start with
  | Some sentence_end => start + sentence_end + 1
  | None => start + chunk_size h
  end.
Proof. unfold window. now destruct (sentence_break h text start). Qed.

Lemma window_advance h text start :
  well_configured h -> start + 1 <= snd (window h text start) - chunk_overlap h.
Proof.
  intros (H0 & H1 & H2). rewrite window_end.
  destruct (sentence_break h text start) as [se|] eqn:Hb; [|lia].
  apply sentence_break_Some in Hb. lia.
Qed.

Lemma spans_terminate h text :
  well_configured h ->
  forall (fuel : nat) start, len text - start <= Z.of_nat fuel ->
  exists ws, spans fuel h text start = Some ws.
Proof.
  intros Hh. induction fuel as [|fuel IH]; intros start Hf; rewrite spans_eq;
    destruct (start <? len text) eqn:Hs; eauto; apply Z.ltb_lt in Hs; [lia|].
  pose proof (window_advance h text start Hh).
  destruct (IH (snd (window h text start) - chunk_overlap h)) as [ws ->]; [lia|].
  simpl. eauto.
Qed.

Lemma spans_chained (fuel : nat) h text start ws :
  spans fuel h text start = Some ws -> chained h text start ws.
Proof.
  revert start ws. induction fuel as [|fuel IH]; intros start ws; rewrite spans_eq;
    destruct (start <? len text) eqn:Hs; try discriminate.
  - intros [= <-]. simpl. apply Z.ltb_ge in Hs. lia.
  - destruct (spans fuel h text _) as [ws'|] eqn:Hw; [|discriminate].
    simpl. intros [= <-]. simpl. apply Z.ltb_lt in Hs. repeat split; auto.
  - intros [= <-]. simpl. apply Z.ltb_ge in Hs. lia.
Qed.

(** Every position from [start] to the end of the text lies in a span. *)
Lemma chained_cover h text :
  0 <= chunk_overlap h ->
  forall ws start p, chained h text start ws -> start <= p < len text ->
  exists w, w ∈ ws /\ fst w <= p < snd w.
Proof.
  intros Hov. induction ws as [|w ws IH]; simpl; intros start p Hc Hp; [lia|].
  destruct Hc as (Hs & Hlt & He & Hc).
  destruct (Z_lt_dec p (snd w)) as [Hin|Hout].
  - exists w. split; [left|lia].
  - destruct (IH _ p Hc) as (w' & Hw' & Hp'); [lia|].
    exists w'. split; [now right|lia].
Qed.

(** A span of the chain, and the chain that follows it. *)
Lemma chained_lookup h text :
  well_configured h ->
  forall ws start (i : nat) w, chained h text start ws -> ws !! i = Some w ->
  start <= fst w /\ fst w < len text /\ snd w = snd (window h text (fst w))
  /\ chained h text (snd w - chunk_overlap h) (drop (S i) ws).
Proof.
  intros Hh. induction ws as [|w0 ws IH]; intros start i w Hc Hi; [discriminate|].
  destruct Hc as (Hs & Hlt & He & Hc). destruct i as [|i]; simpl in Hi.
  - injection Hi as <-. rewrite Hs. simpl. rewrite drop_0. repeat split; auto; lia.
  - destruct (IH _ i w Hc Hi) as (H1 & H2 & H3 & H4).
    pose proof (window_advance h text start Hh). repeat split; auto. lia.
Qed.

Lemma chunk_data_lookup (md : option dict) chunk start end_ (n : nat) (key : string) :
  reserves md key ->
  chunk_data md chunk start end_ n !! key =
  (<["chunk_id" := VInt (Z.of_nat n)]>
     (<["end_pos" := VInt end_]>
       (<["start_pos" := VInt start]>
         ({["text" := VStr (strip chunk)]} : dict)))) !! key.
Proof.
  unfold chunk_data, reserves. destruct md as [m|]; [|reflexivity].
  intros Hm. destruct (decide (m = ∅)); [reflexivity|].
  now apply lookup_union_r.
Qed.

Lemma span_of_span_chunk h text md (i : nat) (w : Z * Z) :
  reserves md "start_pos" -> reserves md "end_pos" ->
  span_of (span_chunk h text md i w) = Some w.
Proof.
  intros Hs He. unfold span_of, span_chunk.
  rewrite (chunk_data_lookup _ _ _ _ _ _ Hs), (chunk_data_lookup _ _ _ _ _ _ He).
  rewrite lookup_insert_ne, lookup_insert_ne, lookup_insert_eq by done.
  rewrite lookup_insert_ne, lookup_insert_eq by done.
  now destruct w.
Qed.


Lemma chunk_text_fuel_spans (fuel : nat) h text md :
  chunk_text_fuel fuel h text md =
  option_map (imap (span_chunk h (clean_text text) md)) (spans fuel h (clean_text text) 0).
Proof. unfold chunk_text_fuel. now rewrite chunk_loop_spans. Qed.

(** With parameters that move the window forward, [len(text) + 1]
    iterations are enough. *)
Lemma chunk_text_returns h text md :
  well_configured h ->
  exists ws, spans (S (length (clean_text text))) h (clean_text text) 0 = Some ws
    /\ chunk_text_fuel (S (length (clean_text text))) h text md
        = Some (imap (span_chunk h (clean_text text) md) ws).
Proof.
  intros Hh.
  destruct (spans_terminate h (clean_text text) Hh (S (length (clean_text text))) 0)
    as [ws Hws]; [unfold len; lia|].
  exists ws. split; [exact Hws|]. now rewrite chunk_text_fuel_spans, Hws.
Qed.


(** C1, amended. When the cleaned text fits one window and the next start
    [chunk_size - chunk_overlap] already lies at or past its end, the
    chunker returns exactly one chunk whose text is the cleaned input,
    provided the text is not empty; an empty cleaned text gives no chunk.
    (The caller's metadata must not itself define the key [text].) *)
Theorem short_text_single_chunk (h : PDFHandler) (text : str) (metadata : option dict) :
  reserves metadata "text" ->
  len (clean_text text) <= chunk_size h ->
  len (clean_text text) <= chunk_size h - chunk_overlap h ->
  exists chunks,
    chunk_text h text metadata chunks
    /\ (forall chunks', chunk_text h text metadata chunks' -> chunks' = chunks)
    /\ (clean_text text = [] -> chunks = [])
    /\ (clean_text text <> [] ->
          exists c, chunks = [c] /\ c !! "text" = Some (VStr (clean_text text))).
Proof.
  intros Hmd Hfit Hnext.
  set (cleaned := clean_text text) in *.
  assert (Hrun : exists chunks,
             chunk_text_fuel 1 h text metadata = Some chunks
             /\ (cleaned = [] -> chunks = [])
             /\ (cleaned <> [] ->
                   exists c, chunks = [c] /\ c !! "text" = Some (VStr cleaned))).
  { unfold chunk_text_fuel. fold cleaned. rewrite chunk_loop_eq.
    destruct (0 <? len cleaned) eqn:Hlen.
    - apply Z.ltb_lt in Hlen. rewrite chunk_loop_eq.
      assert (Hb : sentence_break h cleaned 0 = None).
      { unfold sentence_break.
        destruct (0 + chunk_size h <? len cleaned) eqn:He; [|reflexivity].
        apply Z.ltb_lt in He. lia. }
      assert (Hw : window h cleaned 0 = (cleaned, chunk_size h)).
      { unfold window. rewrite Hb. simpl. now rewrite slice_whole. }
      rewrite Hw. simpl fst. simpl snd.
      destruct (chunk_size h - chunk_overlap h <? len cleaned) eqn:Hn;
        [apply Z.ltb_lt in Hn; lia|].
      eexists. split; [reflexivity|]. split.
      + intros ->. unfold len in Hlen. simpl in Hlen. lia.
      + intros _. eexists. split; [reflexivity|].
        rewrite (chunk_data_lookup _ _ _ _ _ _ Hmd).
        rewrite !lookup_insert_ne by done. rewrite lookup_singleton_eq.
        unfold cleaned. now rewrite strip_clean_text.
    - apply Z.ltb_ge in Hlen. exists []. split; [reflexivity|]. split; [reflexivity|].
      intros Hne. destruct cleaned; [congruence|]. unfold len in Hlen. simpl in Hlen. lia. }
  destruct Hrun as (chunks & Hrun & Hempty & Hone).
  exists chunks. split; [now exists 1%nat|]. split; [|now split].
  intros chunks' Hrun'. apply (chunk_text_deterministic h text metadata); [exact Hrun'|].
  now exists 1%nat.
Qed.

(** C4, amended. With parameters that move the window forward
    (0 <= chunk_overlap < chunk_size and chunk_overlap <= chunk_size/2 + 1,
    as the defaults are) and metadata that leaves [start_pos] and
    [end_pos] to the chunker, [chunk_text] returns chunks whose spans
    cover every position of the cleaned text; each next chunk starts
    exactly chunk_overlap before the recorded end of the one before it,
    whether or not that one was cut at a sentence boundary; and the two
    spans share exactly chunk_overlap positions of the text whenever the
    earlier span ends inside the text. *)
Theorem chunks_cover_and_overlap (h : PDFHandler) (text : str) (metadata : option dict) :
  well_configured h ->
  reserves metadata "start_pos" ->
  reserves metadata "end_pos" ->
  exists chunks,
    chunk_text h text metadata chunks
    /\ (forall p, 0 <= p < len (clean_text text) ->
          exists c s e, c ∈ chunks /\ span_of c = Some (s, e) /\ s <= p < e)
    /\ (forall (i : nat) c c',
          chunks !! i = Some c -> chunks !! S i = Some c' ->
          exists s e s' e',
            span_of c = Some (s, e) /\ span_of c' = Some (s', e')
            /\ s' = e - chunk_overlap h /\ s < s' /\ e < e'
            /\ (e <= len (clean_text text) ->
                 shared_positions (clean_text text) (s, e) (s', e') = chunk_overlap h)).
Proof.
  intros Hh Hs He.
  destruct (chunk_text_returns h text metadata Hh) as (ws & Hws & Hrun).
  set (cleaned := clean_text text) in *.
  apply spans_chained in Hws.
  exists (imap (span_chunk h cleaned metadata) ws).
  split; [eexists; exact Hrun|]. split.
  - intros p Hp.
    destruct (chained_cover h cleaned (proj1 Hh) ws 0 p Hws Hp) as (w & Hw & Hin).
    apply list_elem_of_lookup in Hw as [i Hi].
    exists (span_chunk h cleaned metadata i w), (fst w), (snd w). split; [|split].
    + apply list_elem_of_lookup. exists i. now rewrite list_lookup_imap, Hi.
    + rewrite span_of_span_chunk by assumption. now destruct w.
    + exact Hin.
  - intros i c c'. rewrite !list_lookup_imap.
    destruct (ws !! i) as [w|] eqn:Hi; [|discriminate].
    destruct (ws !! S i) as [w'|] eqn:Hi'; [|discriminate].
    simpl. intros [= <-] [= <-].
    destruct (chained_lookup h cleaned Hh ws 0 i w Hws Hi) as (H0 & Hlt & Hend & Hrest).
    assert (Hhead : drop (S i) ws !! 0%nat = Some w').
    { rewrite lookup_drop. now rewrite Nat.add_0_r. }
    destruct (drop (S i) ws) as [|w0 rest]; [discriminate|].
    injection Hhead as ->. destruct Hrest as (Hs' & Hlt' & Hend' & _).
    pose proof (window_advance h cleaned (fst w) Hh) as Hadv.
    pose proof (window_advance h cleaned (fst w') Hh) as Hadv'.
    destruct Hh as (Hov & _ & _). rewrite <- Hs' in Hend'.
    exists (fst w), (snd w), (fst w'), (snd w').
    rewrite !span_of_span_chunk by assumption.
    repeat split; try now destruct w, w'.
    + lia.
    + lia.
    + intros Hin. unfold shared_positions. simpl. lia.
Qed.

End ChunkerFacts.

(** *** The chunker on concrete texts *)

Example clean_text_example :
  clean_text (U := ascii_unicode) (py "  Hello,   world* #1!  ") = py "Hello, world 1!".
Proof. reflexivity. Qed.

Example py_str_example :
  py_str (VInt 12) = py "12" /\ py_str (VInt (-3)) = py "-3" /\ py_str (VInt 0) = py "0".
Proof. repeat split; reflexivity. Qed.

(** A sentence end past the halfway point cuts the window there. *)
Example window_example :
  let h := {| chunk_size := 10; chunk_overlap := 2 |} in
  window h (py "One two. Three four five.") 0 = (py "One two.", 8)
  /\ chunk_text_fuel (U := ascii_unicode) 5 h (py "One two. Three four five.") None
     = Some [ <["chunk_id" := VInt 0]> (<["end_pos" := VInt 8]>
                (<["start_pos" := VInt 0]> {["text" := VStr (py "One two.")]}));
              <["chunk_id" := VInt 1]> (<["end_pos" := VInt 16]>
                (<["start_pos" := VInt 6]> {["text" := VStr (py "o. Three f")]}));
              <["chunk_id" := VInt 2]> (<["end_pos" := VInt 24]>
                (<["start_pos" := VInt 14]> {["text" := VStr (py "four five")]}));
              <["chunk_id" := VInt 3]> (<["end_pos" := VInt 32]>
                (<["start_pos" := VInt 22]> {["text" := VStr (py "ve.")]})) ].
Proof. split; reflexivity. Qed.

Lemma short_text_single_chunk_witness :
  exists chunks,
    chunk_text (U := ascii_unicode) default_handler (py "Hello, world.") None chunks
    /\ (forall chunks',
          chunk_text (U := ascii_unicode) default_handler (py "Hello, world.") None chunks'
          -> chunks' = chunks)
    /\ (clean_text (U := ascii_unicode) (py "Hello, world.") = [] -> chunks = [])
    /\ (clean_text (U := ascii_unicode) (py "Hello, world.") <> [] ->
          exists c, chunks = [c]
            /\ c !! "text" = Some (VStr (clean_text (U := ascii_unicode) (py "Hello, world.")))).
Proof.
  apply (short_text_single_chunk (U := ascii_unicode) default_handler (py "Hello, world.") None).
  - exact I.
  - by vm_compute.
  - by vm_compute.
Defined.

(** C1 fails as stated. An empty text has a cleaned form of length 0, within
    chunk_size, and yields no chunk at all; a text of 900 letters is its own
    cleaned form, within chunk_size = 1000, and yields two chunks, the second
    starting at 1000 - 200 = 800. *)
Lemma short_text_counterexample :
  (len (clean_text (U := ascii_unicode) []) <= chunk_size default_handler
   /\ chunk_text_fuel (U := ascii_unicode) 1 default_handler [] None = Some [])
  /\ (clean_text (U := ascii_unicode) text900 = text900
      /\ len text900 <= chunk_size default_handler
      /\ chunk_text_fuel (U := ascii_unicode) 3 default_handler text900 None
         = Some [ <["chunk_id" := VInt 0]> (<["end_pos" := VInt 1000]>
                    (<["start_pos" := VInt 0]> {["text" := VStr text900]}));
                  <["chunk_id" := VInt 1]> (<["end_pos" := VInt 1800]>
                    (<["start_pos" := VInt 800]> {["text" := VStr (repeat (ch "a") 100)]})) ]
      /\ (forall c, ~ chunk_text (U := ascii_unicode) default_handler text900 None [c])).
Proof.
  assert (Hrun : chunk_text_fuel (U := ascii_unicode) 3 default_handler text900 None
         = Some [ <["chunk_id" := VInt 0]> (<["end_pos" := VInt 1000]>
                    (<["start_pos" := VInt 0]> {["text" := VStr text900]}));
                  <["chunk_id" := VInt 1]> (<["end_pos" := VInt 1800]>
                    (<["start_pos" := VInt 800]> {["text" := VStr (repeat (ch "a") 100)]})) ])
    by (vm_compute; reflexivity).
  split; [split; [by vm_compute | reflexivity]|].
  split; [vm_compute; reflexivity|]. split; [by vm_compute|]. split; [exact Hrun|].
  intros c Hc.
  assert (Hrun' : chunk_text (U := ascii_unicode) default_handler text900 None
                    [ <["chunk_id" := VInt 0]> (<["end_pos" := VInt 1000]>
                        (<["start_pos" := VInt 0]> {["text" := VStr text900]}));
                      <["chunk_id" := VInt 1]> (<["end_pos" := VInt 1800]>
                        (<["start_pos" := VInt 800]> {["text" := VStr (repeat (ch "a") 100)]})) ])
    by (exists 3%nat; exact Hrun).
  pose proof (chunk_text_deterministic _ _ _ _ _ Hc Hrun') as Heq.
  discriminate Heq.
Qed.

Lemma chunks_cover_and_overlap_witness :
  exists chunks,
    chunk_text (U := ascii_unicode) default_handler text900 None chunks
    /\ (forall p, 0 <= p < len (clean_text (U := ascii_unicode) text900) ->
          exists c s e, c ∈ chunks /\ span_of c = Some (s, e) /\ s <= p < e)
    /\ (forall (i : nat) c c',
          chunks !! i = Some c -> chunks !! S i = Some c' ->
          exists s e s' e',
            span_of c = Some (s, e) /\ span_of c' = Some (s', e')
            /\ s' = e - chunk_overlap default_handler /\ s < s' /\ e < e'
            /\ (e <= len (clean_text (U := ascii_unicode) text900) ->
                 shared_positions (clean_text (U := ascii_unicode) text900) (s, e) (s', e')
                 = chunk_overlap default_handler)).
Proof.
  apply (chunks_cover_and_overlap (U := ascii_unicode) default_handler text900 None).
  - repeat split; by vm_compute.
  - exact I.
  - exact I.
Defined.

(** C4 fails as stated. For the text of 900 letters the first window is not
    cut at a sentence boundary; the two chunks record the spans [0, 1000)
    and [800, 1800), but the text ends at 900: the spans share 100 of its
    positions and the second chunk holds 100 characters, fewer than
    chunk_overlap = 200. *)
Lemma overlap_counterexample :
  exists c0 c1,
    chunk_text_fuel (U := ascii_unicode) 3 default_handler text900 None = Some [c0; c1]
    /\ sentence_break default_handler (clean_text (U := ascii_unicode) text900) 0 = None
    /\ span_of c0 = Some (0, 1000) /\ span_of c1 = Some (800, 1800)
    /\ shared_positions (clean_text (U := ascii_unicode) text900) (0, 1000) (800, 1800) = 100
    /\ c1 !! "text" = Some (VStr (repeat (ch "a") 100))
    /\ 100 < chunk_overlap default_handler.
Proof.
  eexists _, _. split; [vm_compute; reflexivity|].
  repeat split; vm_compute; reflexivity.
Qed.

(** ** The vector database *)

Section VectorDbFacts.

Context {FL : Floats}.

Lemma comprehension_length {A B} (f : A -> result B) (l : list A) (bs : list B) :
  comprehension f l = Ok bs -> length bs = length l.
Proof.
  revert bs. induction l as [|a l IH]; simpl; intros bs.
  - now intros [= <-].
  - destruct (f a) as [b|e]; simpl; [|discriminate].
    destruct (comprehension f l) as [bs'|e]; simpl; [|discriminate].
    intros [= <-]. simpl. f_equal. now apply IH.
Qed.

Lemma comprehension_lookup {A B} (f : A -> result B) (l : list A) (bs : list B) :
  comprehension f l = Ok bs ->
  forall (i : nat) a, l !! i = Some a -> exists b, bs !! i = Some b /\ f a = Ok b.
Proof.
  revert bs. induction l as [|a0 l IH]; simpl; intros bs H i a Hi; [discriminate|].
  destruct (f a0) as [b0|e] eqn:Hf; simpl in H; [|discriminate].
  destruct (comprehension f l) as [bs'|e]; simpl in H; [|discriminate].
  injection H as <-. destruct i as [|i]; simpl in *.
  - injection Hi as <-. eauto.
  - now apply IH.
Qed.

Lemma comprehension_total {A B} (f : A -> result B) (l : list A) :
  (forall a, a ∈ l -> exists b, f a = Ok b) -> exists bs, comprehension f l = Ok bs.
Proof.
  induction l as [|a l IH]; simpl; intros H; [eauto|].
  destruct (H a) as [b ->]; [left|]. simpl.
  destruct IH as [bs ->]; [intros a' Ha'; apply H; now right|]. simpl. eauto.
Qed.

Lemma comprehension_map {A B} (f : A -> result B) (g : A -> B) (l : list A) (bs : list B) :
  (forall a b, f a = Ok b -> b = g a) -> comprehension f l = Ok bs -> bs = map g l.
Proof.
  intros Hfg. revert bs. induction l as [|a l IH]; simpl; intros bs.
  - now intros [= <-].
  - destruct (f a) as [b|e] eqn:Hf; simpl; [|discriminate].
    destruct (comprehension f l) as [bs'|e]; simpl; [|discriminate].
    intros [= <-]. f_equal; [now apply Hfg | now apply IH].
Qed.

Lemma py_index_in_range {A} (l : list A) (i : Z) :
  0 <= i < len l -> exists a, py_index l i = Ok a /\ l !! Z.to_nat i = Some a.
Proof.
  intros Hi. unfold py_index.
  destruct (i <? 0) eqn:H0; [apply Z.ltb_lt in H0; lia|]. rewrite H0.
  destruct (l !! Z.to_nat i) as [a|] eqn:Hl; [eauto|].
  apply lookup_ge_None in Hl. unfold len in Hi. lia.
Qed.

Lemma py_index_elem {A} (l : list A) (i : Z) (a : A) : py_index l i = Ok a -> a ∈ l.
Proof.
  unfold py_index.
  match goal with |- context [?j <? 0] => destruct (j <? 0); [discriminate|] end.
  match goal with |- context [l !! ?n] => destruct (l !! n) as [a'|] eqn:Hl end;
    [|discriminate].
  intros [= <-]. apply list_elem_of_lookup. eauto.
Qed.

Lemma get_batch_embeddings_length client (i : nat) texts embeddings :
  get_batch_embeddings client i texts = Ok embeddings -> length embeddings = length texts.
Proof.
  revert i embeddings. induction texts as [|t texts IH]; simpl; intros i es.
  - now intros [= <-].
  - destruct (get_embedding (client i) t) as [e|x]; simpl; [|discriminate].
    destruct (get_batch_embeddings client (S i) texts) as [es'|x] eqn:H; simpl; [|discriminate].
    intros [= <-]. simpl. f_equal. now apply (IH (S i)).
Qed.

(** C6. Whatever the query text and the requested count, [query] on a
    collection whose index is unloaded (None) or whose document list is
    empty returns the empty result, the three lists empty, and raises
    nothing: the remote embedding call is not even made. *)
Theorem query_on_empty_collection (self : VectorDatabase)
    (feature_extraction : value -> result extraction) (query_text : str) (n_results : Z) :
  index self = None \/ documents self = [] ->
  query self feature_extraction query_text n_results
  = Ok {| results_docs := []; results_meta := []; results_dist := [] |}.
Proof.
  intros [Hi | Hd]; unfold query.
  - now rewrite Hi.
  - rewrite Hd. now destruct (index self).
Qed.

Lemma chunk_metadata_dom (chunk : dict) :
  dom (chunk_metadata chunk) = ({["source"; "chunk_id"; "title"]} : gset string).
Proof.
  unfold chunk_metadata. rewrite !dom_insert_L, dom_singleton_L. set_solver.
Qed.

Lemma chunk_metadata_chunk_id (chunk : dict) :
  chunk_metadata chunk !! "chunk_id"
  = Some (VStr (py_str (default (VInt 0) (chunk !! "chunk_id")))).
Proof.
  unfold chunk_metadata. rewrite lookup_insert_ne by done. apply lookup_insert_eq.
Qed.

Lemma chunk_metadata_absent (chunk : dict) (key : string) :
  key <> "source" -> key <> "chunk_id" -> key <> "title" ->
  chunk_metadata chunk !! key = None.
Proof.
  intros Hs Hc Ht. apply not_elem_of_dom. rewrite chunk_metadata_dom.
  rewrite !elem_of_union, !elem_of_singleton. tauto.
Qed.

Lemma chunk_texts (chunks : list dict) (texts : list value) :
  comprehension chunk_text_of chunks = Ok texts ->
  texts = map (fun c => default VNone (c !! "text")) chunks.
Proof.
  apply comprehension_map. intros c v. unfold chunk_text_of.
  destruct (c !! "text"); [|discriminate]. now intros [= <-].
Qed.

Lemma tagged_origin (chunks : list dict) (embeddings : list (list F)) :
  length embeddings = length chunks ->
  map origin (zip_with tag chunks embeddings) = chunks.
Proof.
  revert embeddings. induction chunks as [|c chunks IH]; intros [|e es]; simpl;
    try discriminate; [reflexivity|].
  intros [= H]. f_equal. now apply IH.
Qed.

(** What a successful [add_documents] stores: behind the containers as
    they were once the collection was loaded, the text and the metadata
    record of each chunk, and its vector, in the order of the chunks. *)
Lemma add_documents_ok self disk chunks name client io self' disk' :
  add_documents self disk chunks name client io = (self', disk', Ok tt) ->
  let self0 := match index self with
               | None => create_collection self disk name
               | Some _ => self
               end in
  exists ix rows,
    index self0 = Some ix
    /\ map origin rows = chunks
    /\ index self' = Some {| dim := dim ix; xb := xb ix ++ rows |}
    /\ documents self' = documents self0 ++ map row_text rows
    /\ metadatas self' = metadatas self0 ++ map chunk_metadata chunks
    /\ disk' = _save io self' disk.
Proof.
  intros H self0. unfold add_documents in H. fold self0 in H.
  destruct (comprehension chunk_text_of chunks) as [texts|e] eqn:Ht; simpl in H;
    [|discriminate].
  destruct (get_batch_embeddings client 0 texts) as [es|e] eqn:He; simpl in H;
    [|discriminate].
  destruct (index self0) as [ix|] eqn:Hix; simpl in H; [|discriminate].
  unfold index_add in H.
  destruct (forallb _ _); simpl in H; [|discriminate].
  injection H as <- <-.
  apply get_batch_embeddings_length in He.
  pose proof (comprehension_length _ _ _ Ht) as Hlen.
  assert (Ho : map origin (zip_with tag chunks es) = chunks)
    by (apply tagged_origin; congruence).
  exists ix, (zip_with tag chunks es). simpl. repeat split; auto.
  f_equal. rewrite (chunk_texts _ _ Ht). rewrite <- Ho at 1.
  rewrite map_map. reflexivity.
Qed.

Lemma get_batch_embeddings_lookup client (n : nat) texts embeddings :
  get_batch_embeddings client n texts = Ok embeddings ->
  forall (i : nat) text, texts !! i = Some text ->
  exists v, embeddings !! i = Some v /\ get_embedding (client (n + i)%nat) text = Ok v.
Proof.
  revert n embeddings. induction texts as [|t texts IH]; intros n es H i text Hi;
    [discriminate|]. simpl in H.
  destruct (get_embedding (client n) t) as [v|e] eqn:Hv; simpl in H; [|discriminate].
  destruct (get_batch_embeddings client (S n) texts) as [es'|e] eqn:Hes; simpl in H;
    [|discriminate].
  injection H as <-. destruct i as [|i]; simpl in *.
  - injection Hi as <-. exists v. now rewrite Nat.add_0_r.
  - destruct (IH _ _ Hes i text Hi) as (v' & Hv' & Hg). exists v'.
    split; [exact Hv'|]. now replace (n + S i)%nat with (S n + i)%nat by lia.
Qed.

Lemma add_documents_raise self disk chunks name client io self' disk' e :
  add_documents self disk chunks name client io = (self', disk', Raise e) ->
  self' = match index self with
          | None => create_collection self disk name
          | Some _ => self
          end
  /\ disk' = disk.
Proof.
  unfold add_documents.
  match goal with |- context [match ?r with Ok _ => _ | Raise _ => _ end = _] =>
    destruct r as [[texts ix]|e'] end.
  - discriminate.
  - now intros [= <- <- _].
Qed.

(** What a successful [add_documents] appends to the index: for each
    chunk, in order, the vector that the remote call of its rank answered
    for its text. *)
Lemma add_documents_rows self disk chunks name client io self' disk' :
  add_documents self disk chunks name client io = (self', disk', Ok tt) ->
  let self0 := match index self with
               | None => create_collection self disk name
               | Some _ => self
               end in
  exists ix rows,
    index self0 = Some ix
    /\ index self' = Some {| dim := dim ix; xb := xb ix ++ rows |}
    /\ documents self' = documents self0 ++ map text_of chunks
    /\ metadatas self' = metadatas self0 ++ map chunk_metadata chunks
    /\ disk' = _save io self' disk
    /\ Forall2 (fun chunk r =>
                  embedded_during (AddDocuments chunks name client io) chunk (vector r))
               chunks rows.
Proof.
  intros H self0. unfold add_documents in H. fold self0 in H.
  destruct (comprehension chunk_text_of chunks) as [texts|e] eqn:Ht; simpl in H;
    [|discriminate].
  destruct (get_batch_embeddings client 0 texts) as [es|e] eqn:He; simpl in H;
    [|discriminate].
  destruct (index self0) as [ix|] eqn:Hix; simpl in H; [|discriminate].
  unfold index_add in H.
  destruct (forallb _ _); simpl in H; [|discriminate].
  injection H as <- <-.
  pose proof (get_batch_embeddings_length _ _ _ _ He) as Hlen.
  pose proof (comprehension_length _ _ _ Ht) as Hlen'.
  pose proof (chunk_texts _ _ Ht) as Htexts.
  exists ix, (zip_with tag chunks es). simpl. rewrite Htexts.
  repeat split; auto.
  apply Forall2_same_length_lookup_2.
  - rewrite length_zip_with. lia.
  - intros i chunk r Hc Hr. apply lookup_zip_with_Some in Hr as (c & v & -> & Hc' & Hv).
    rewrite Hc in Hc'. injection Hc' as <-. simpl. exists i. split; [exact Hc|].
    assert (Hti : texts !! i = Some (text_of chunk)).
    { rewrite Htexts. change (map ?f chunks) with (f <$> chunks).
      now rewrite list_lookup_fmap, Hc. }
    destruct (get_batch_embeddings_lookup _ _ _ _ He i _ Hti) as (v' & Hv' & Hg).
    rewrite Hv in Hv'. injection Hv' as <-. exact Hg.
Qed.

Lemma aligned_mono (known known' : dict -> list F -> Prop) (self : VectorDatabase) :
  (forall chunk v, known chunk v -> known' chunk v) ->
  aligned known self -> aligned known' self.
Proof.
  intros Hk. unfold aligned. destruct (index self) as [ix|]; [|trivial].
  intros (chunks & Hd & Hm & Hv). exists chunks. repeat split; auto.
  eapply Forall2_impl; [exact Hv|]. intros chunk r. apply Hk.
Qed.

Lemma disk_aligned_mono (known known' : dict -> list F -> Prop) (disk : Disk) :
  (forall chunk v, known chunk v -> known' chunk v) ->
  disk_aligned known disk -> disk_aligned known' disk.
Proof.
  intros Hk. unfold disk_aligned.
  destruct (index_file disk), (docs_file disk), (meta_file disk); trivial.
  now apply aligned_mono.
Qed.

Lemma aligned_counts known (self : VectorDatabase) :
  aligned known self -> counts_agree self.
Proof.
  unfold aligned, counts_agree, ntotal, len.
  destruct (index self) as [ix|].
  - intros (chunks & -> & -> & Hv). apply Forall2_length in Hv.
    rewrite !length_map. split; [reflexivity | now rewrite Hv].
  - now intros [-> ->].
Qed.

(** The reading of [aligned] at one position. *)
Lemma aligned_lookup known (self : VectorDatabase) (i : nat) (text : value) :
  aligned known self -> documents self !! i = Some text ->
  exists chunk ix r,
    index self = Some ix /\ xb ix !! i = Some r
    /\ metadatas self !! i = Some (chunk_metadata chunk)
    /\ text = text_of chunk
    /\ known chunk (vector r).
Proof.
  unfold aligned. destruct (index self) as [ix|].
  - intros (chunks & Hd & Hm & Hv) Hi. rewrite Hd in Hi.
    change (map ?f chunks) with (f <$> chunks) in Hi.
    rewrite list_lookup_fmap in Hi.
    destruct (chunks !! i) as [chunk|] eqn:Hc; [|discriminate]. injection Hi as <-.
    destruct (Forall2_lookup_l _ _ _ _ _ Hv Hc) as (r & Hr & Hk).
    exists chunk, ix, r. repeat split; auto.
    rewrite Hm. change (map ?f chunks) with (f <$> chunks).
    now rewrite list_lookup_fmap, Hc.
  - intros [-> _] Hi. discriminate.
Qed.

Lemma create_collection_aligned known self disk name :
  disk_aligned known disk -> aligned known (create_collection self disk name).
Proof.
  assert (Hfresh : aligned known
            {| index := Some {| dim := embedding_dim; xb := [] |};
               documents := []; metadatas := []; collection_name := Some name |}).
  { exists []. repeat split. constructor. }
  unfold disk_aligned, create_collection.
  destruct (index_file disk), (docs_file disk), (meta_file disk); simpl; auto.
Qed.

Lemma save_complete_aligned known io self disk :
  (forall a, io a = Written) -> aligned known self -> disk_aligned known disk ->
  disk_aligned known (_save io self disk).
Proof.
  intros Hio Ha Hd. unfold _save. destruct (index self) as [ix|] eqn:Hix; [|exact Hd].
  rewrite !Hio. simpl. unfold disk_aligned. simpl.
  unfold aligned in *. simpl. now rewrite Hix in Ha.
Qed.

(** [add_documents] keeps the containers in memory aligned, raise or not;
    it keeps the disk aligned when its writes complete. *)
Lemma add_documents_aligned known self disk chunks name client io :
  (forall chunk v,
     embedded_during (AddDocuments chunks name client io) chunk v -> known chunk v) ->
  aligned known self -> disk_aligned known disk ->
  aligned known (fst (fst (add_documents self disk chunks name client io)))
  /\ ((forall a, io a = Written) ->
       disk_aligned known (snd (fst (add_documents self disk chunks name client io)))).
Proof.
  intros Hk Ha Hd.
  assert (Ha0 : aligned known match index self with
                              | None => create_collection self disk name
                              | Some _ => self
                              end).
  { destruct (index self); [exact Ha | now apply create_collection_aligned]. }
  destruct (add_documents self disk chunks name client io) as [[self' disk'] [[]|e]] eqn:H.
  - apply add_documents_rows in H. cbv zeta in H.
    destruct H as (ix & rows & Hix & Hix' & Hdocs & Hmetas & Hdisk & Hrows).
    assert (Ha' : aligned known self').
    { unfold aligned in *. rewrite Hix' , Hix in *.
      destruct Ha0 as (chunks0 & Hd0 & Hm0 & Hv0).
      exists (chunks0 ++ chunks). simpl.
      rewrite Hdocs, Hmetas, Hd0, Hm0, !map_app. repeat split.
      apply Forall2_app; [exact Hv0|].
      eapply Forall2_impl; [exact Hrows|]. intros chunk r. apply Hk. }
    simpl. split; [exact Ha'|]. intros Hio. subst disk'.
    now apply save_complete_aligned.
  - apply add_documents_raise in H as [-> ->]. simpl. now split.
Qed.

(** [delete_collection] keeps memory and disk aligned, whichever removal
    fails. *)
Lemma delete_collection_aligned known self disk name rm :
  aligned known self -> disk_aligned known disk ->
  aligned known (fst (delete_collection self disk name rm))
  /\ disk_aligned known (snd (delete_collection self disk name rm)).
Proof.
  intros Ha Hd. unfold delete_collection, remove, disk_aligned in *.
  destruct (index_file disk), (docs_file disk), (meta_file disk),
    (rm IndexPath), (rm DocsPath), (rm MetaPath); simpl in *; auto;
    split; auto; now unfold aligned.
Qed.

Lemma step_aligned known (s : VectorDatabase * Disk) (c : call) :
  (forall chunk v, embedded_during c chunk v -> known chunk v) ->
  saves_complete c ->
  aligned known (fst s) /\ disk_aligned known (snd s) ->
  aligned known (fst (step s c)) /\ disk_aligned known (snd (step s c)).
Proof.
  destruct s as [self disk]. intros Hk Hc [Ha Hd]. destruct c; simpl in *.
  - split; [now apply create_collection_aligned | exact Hd].
  - destruct (add_documents_aligned known self disk chunks name client io Hk Ha Hd)
      as [H1 H2].
    split; [exact H1 | now apply H2].
  - now split.
  - now apply delete_collection_aligned.
  - now apply delete_collection_aligned.
Qed.

Lemma run_aligned known (calls : list call) (s : VectorDatabase * Disk) :
  (forall chunk v, Exists (fun c => embedded_during c chunk v) calls -> known chunk v) ->
  Forall saves_complete calls ->
  aligned known (fst s) /\ disk_aligned known (snd s) ->
  aligned known (fst (run s calls)) /\ disk_aligned known (snd (run s calls)).
Proof.
  revert s. induction calls as [|c calls IH]; intros s Hk Hcs Hs; [exact Hs|].
  inversion Hcs; subst. simpl. apply IH.
  - intros chunk v Hex. apply Hk. now apply Exists_cons_tl.
  - assumption.
  - apply step_aligned; [|assumption|assumption].
    intros chunk v Hin. apply Hk. now apply Exists_cons_hd.
Qed.

(** C2, amended. Starting from a freshly constructed database on a
    persist directory whose artifacts are aligned (an empty directory is),
    every state reached by any sequence of create_collection,
    add_documents, query, delete_collection and reset_database calls in
    which every write of [_save] completes keeps the three containers
    aligned: len(documents) == len(metadatas) == index.ntotal, and at
    every position i one chunk, stored in the directory at the start or
    handed to one of the add_documents calls, accounts for all three: the
    i-th document is its text, the i-th metadata record is the one built
    from it, and the vector of the i-th index row is the embedding that
    the remote call made for this chunk answered for its text. Embedding
    failures, embeddings of a wrong dimension and failed file removals
    are all allowed. *)
Theorem containers_stay_aligned (stored : dict -> list F -> Prop) (disk0 : Disk)
    (calls : list call) :
  disk_aligned stored disk0 ->
  Forall saves_complete calls ->
  aligned (entered stored calls) (fst (run (init, disk0) calls))
  /\ counts_agree (fst (run (init, disk0) calls))
  /\ forall (i : nat) (text : value),
       documents (fst (run (init, disk0) calls)) !! i = Some text ->
       exists chunk ix r,
         index (fst (run (init, disk0) calls)) = Some ix
         /\ xb ix !! i = Some r
         /\ metadatas (fst (run (init, disk0) calls)) !! i = Some (chunk_metadata chunk)
         /\ text = text_of chunk
         /\ entered stored calls chunk (vector r).
Proof.
  intros Hd Hcs.
  destruct (run_aligned (entered stored calls) calls (init, disk0)) as [Ha _].
  - intros chunk v Hex. now right.
  - exact Hcs.
  - split; [now unfold aligned|].
    apply (disk_aligned_mono stored); [|exact Hd]. intros chunk v Hs. now left.
  - split; [exact Ha|]. split; [now apply (aligned_counts (entered stored calls))|].
    intros i text Hi. now apply (aligned_lookup (entered stored calls)).
Qed.

(** C9, amended. A [reset_database] during which no file removal fails
    leaves count 0, an unloaded index, empty containers and none of the
    three artifacts; a second call right after it, whatever the file
    system does, changes nothing. No call raises; one that meets a
    removal that raises, an artifact being there whose [os.remove] fails,
    leaves the collection in memory exactly as it was, and every other
    one leaves it unloaded and empty. *)
Theorem reset_database_idempotent (self : VectorDatabase) (disk : Disk) :
  let once := reset_database self disk no_remove_fault in
  get_collection_count (fst once) = 0
  /\ fst once = init
  /\ snd once = empty_disk
  /\ (forall rm, reset_database (fst once) (snd once) rm = once)
  /\ (forall rm, fst (reset_database self disk rm)
                 = if removal_fails disk rm then self else init).
Proof.
  unfold reset_database, delete_collection, remove, removal_fails, no_remove_fault.
  destruct (index_file disk), (docs_file disk), (meta_file disk); simpl;
    repeat split; auto; intros rm;
    destruct (rm IndexPath), (rm DocsPath), (rm MetaPath); simpl; auto.
Qed.

(** The metadata [query] returns are records of the stored list. *)
Lemma query_metadata_stored self feature_extraction query_text n_results res :
  query self feature_extraction query_text n_results = Ok res ->
  forall metadata, metadata ∈ results_meta res -> metadata ∈ metadatas self.
Proof.
  unfold query.
  destruct (index self) as [ix|]; [|intros [= <-] m Hm; simpl in Hm; set_solver].
  destruct (len (documents self) =? 0);
    [intros [= <-] m Hm; simpl in Hm; set_solver|].
  destruct (get_embedding feature_extraction (VStr query_text)) as [q|e]; simpl;
    [|discriminate].
  destruct (index_search ix q _) as [[distances indices]|e]; simpl; [|discriminate].
  destruct (comprehension (py_index (documents self)) indices) as [docs|e]; simpl;
    [|discriminate].
  destruct (comprehension (py_index (metadatas self)) indices) as [metas|e] eqn:Hc;
    simpl; [|discriminate].
  intros [= <-] m Hm. simpl in Hm.
  apply list_elem_of_lookup in Hm as [i Hi].
  destruct (indices !! i) as [j|] eqn:Hj.
  - destruct (comprehension_lookup _ _ _ Hc i j Hj) as (m' & Hm' & Hidx).
    rewrite Hi in Hm'. injection Hm' as <-. now apply py_index_elem in Hidx.
  - apply lookup_ge_None in Hj. apply comprehension_length in Hc.
    apply lookup_lt_Some in Hi. lia.
Qed.

End VectorDbFacts.

(** *** Ranking of the search results *)

Section Ranking.

Context {FL : Floats}.

(** The comparison of distances is a total preorder (it is on numbers
    that are not NaN). *)
Hypothesis fle_total : forall x y : F, fle x y = true \/ fle y x = true.
Hypothesis fle_trans : forall x y z : F, fle x y = true -> fle y z = true -> fle x z = true.

Lemma insert_by_distance_perm (x : F * Z) (l : list (F * Z)) :
  insert_by_distance x l ≡ₚ x :: l.
Proof.
  induction l as [|y l IH]; simpl; [reflexivity|].
  destruct (fle (fst x) (fst y)); [reflexivity|].
  rewrite IH. apply perm_swap.
Qed.

Lemma ranked_perm (l : list (F * Z)) : foldr insert_by_distance [] l ≡ₚ l.
Proof.
  induction l as [|x l IH]; simpl; [reflexivity|].
  now rewrite insert_by_distance_perm, IH.
Qed.

Lemma insert_by_distance_sorted (x : F * Z) (l : list (F * Z)) :
  StronglySorted ranks_before l ->
  Forall (fun y => snd x < snd y) l ->
  StronglySorted ranks_before (insert_by_distance x l).
Proof.
  induction l as [|y l IH]; simpl; intros Hs Hx.
  - repeat constructor.
  - apply StronglySorted_cons in Hs as [Hy Hs]. apply Forall_cons in Hx as [Hxy Hx].
    destruct (fle (fst x) (fst y)) eqn:Hle.
    + apply StronglySorted_cons. split; [|now apply StronglySorted_cons].
      constructor; [now split|].
      rewrite Forall_forall in *. intros z Hz. split.
      * apply (fle_trans _ (fst y)); [exact Hle | now apply Hy].
      * intros _. now apply Hx.
    + apply StronglySorted_cons. split; [|now apply IH].
      rewrite Forall_forall in *. intros z Hz.
      rewrite insert_by_distance_perm in Hz. apply elem_of_cons in Hz as [-> | Hz].
      * split; [destruct (fle_total (fst x) (fst y)); congruence | congruence].
      * now apply Hy.
Qed.

(** Sorting candidates that stand in insertion order ranks them by
    distance first and by position among equals. *)
Lemma ranked_sorted (l : list (F * Z)) :
  StronglySorted (fun a b => snd a < snd b) l ->
  StronglySorted ranks_before (foldr insert_by_distance [] l).
Proof.
  induction l as [|x l IH]; simpl; intros Hs; [constructor|].
  apply StronglySorted_cons in Hs as [Hx Hs].
  apply insert_by_distance_sorted; [now apply IH|].
  rewrite Forall_forall in *. intros y Hy. rewrite ranked_perm in Hy. now apply Hx.
Qed.

Lemma scores_lookup (q : list F) (rows : list row) (i : Z) (n : nat) :
  scores q rows i !! n
  = (fun r => (l2sqr q (vector r), i + Z.of_nat n)) <$> rows !! n.
Proof.
  revert i n. induction rows as [|r rows IH]; intros i n; [reflexivity|].
  destruct n as [|n]; simpl.
  - do 2 f_equal. lia.
  - rewrite IH. destruct (rows !! n); simpl; [|reflexivity]. do 2 f_equal. lia.
Qed.

Lemma scores_length (q : list F) (rows : list row) (i : Z) :
  length (scores q rows i) = length rows.
Proof. revert i. induction rows as [|r rows IH]; intros i; simpl; [|rewrite IH]; reflexivity. Qed.

Lemma scores_elem (q : list F) (rows : list row) (i : Z) (c : F * Z) :
  c ∈ scores q rows i <->
  exists (n : nat) r, rows !! n = Some r /\ c = (l2sqr q (vector r), i + Z.of_nat n).
Proof.
  rewrite list_elem_of_lookup. split.
  - intros [n Hn]. rewrite scores_lookup in Hn.
    destruct (rows !! n) as [r|] eqn:Hr; [|discriminate].
    injection Hn as <-. eauto.
  - intros (n & r & Hr & ->). exists n. now rewrite scores_lookup, Hr.
Qed.

Lemma scores_in_order (q : list F) (rows : list row) (i : Z) :
  StronglySorted (fun a b => snd a < snd b) (scores q rows i).
Proof.
  revert i. induction rows as [|r rows IH]; intros i; simpl; [constructor|].
  apply StronglySorted_cons. split; [|apply IH].
  rewrite Forall_forall. intros c Hc. apply scores_elem in Hc as (n & r' & _ & ->).
  simpl. lia.
Qed.

(** [[l[i] for i in positions]] succeeds when every position is in range,
    and picks the elements at those positions. *)
Lemma gather {A} (l : list A) (positions : list Z) :
  (forall i, i ∈ positions -> 0 <= i < len l) ->
  exists picked,
    comprehension (py_index l) positions = Ok picked
    /\ length picked = length positions
    /\ (forall (n : nat) i, positions !! n = Some i -> picked !! n = l !! Z.to_nat i).
Proof.
  intros Hr.
  destruct (comprehension_total (py_index l) positions) as [picked Hp].
  { intros i Hi. destruct (py_index_in_range l i (Hr i Hi)) as (a & Ha & _). eauto. }
  exists picked. split; [exact Hp|]. split; [now apply comprehension_length in Hp|].
  intros n i Hn. destruct (comprehension_lookup _ _ _ Hp n i Hn) as (b & Hb & Hi).
  assert (Hin : i ∈ positions) by (apply list_elem_of_lookup; eauto).
  destruct (py_index_in_range l i (Hr i Hin)) as (a & Ha & Hl). congruence.
Qed.

(** C3. For a loaded, non-empty collection whose three containers hold
    n entries each, a query embedding of the index dimension and a
    requested count k >= 0, [query] returns min(k, n) results: the hits,
    each a row of the index with its squared Euclidean distance to the
    query embedding and its position, go with the document and the
    metadata record at that position and with that distance; the hits
    stand in ascending distance, rows at equal distance in insertion
    order; and every row left out ranks after every hit. The search of
    the index is the one modelled from the spec. *)
Theorem query_returns_nearest (self : VectorDatabase) (ix : IndexFlatL2)
    (feature_extraction : value -> result extraction) (query_text : str)
    (k : Z) (q : list F) :
  index self = Some ix ->
  documents self <> [] ->
  length (documents self) = length (xb ix) ->
  length (metadatas self) = length (xb ix) ->
  get_embedding feature_extraction (VStr query_text) = Ok q ->
  length q = dim ix ->
  0 <= k ->
  exists (hits : list (F * Z)) (res : QueryResult),
    query self feature_extraction query_text k = Ok res
    /\ len hits = Z.min k (len (documents self))
    /\ length (results_docs res) = length hits
    /\ length (results_meta res) = length hits
    /\ results_dist res = map fst hits
    /\ (forall (i : nat) hit, hits !! i = Some hit ->
         (exists r, xb ix !! Z.to_nat (snd hit) = Some r
                    /\ 0 <= snd hit /\ fst hit = l2sqr q (vector r))
         /\ results_docs res !! i = documents self !! Z.to_nat (snd hit)
         /\ results_meta res !! i = metadatas self !! Z.to_nat (snd hit))
    /\ StronglySorted ranks_before hits
    /\ (forall (n : nat) r, xb ix !! n = Some r ->
         (l2sqr q (vector r), Z.of_nat n) ∉ hits ->
         Forall (fun hit => ranks_before hit (l2sqr q (vector r), Z.of_nat n)) hits).
Proof.
  intros Hix Hne Hdocs Hmetas Hq Hdim Hk.
  set (n_results := Z.min k (len (documents self))).
  set (ranked := foldr insert_by_distance [] (candidates ix q)).
  set (hits := take (Z.to_nat n_results) ranked).
  assert (Hperm : ranked ≡ₚ candidates ix q) by apply ranked_perm.
  assert (Hsorted : StronglySorted ranks_before ranked)
    by (apply ranked_sorted, scores_in_order).
  assert (Hsplit : ranked = hits ++ drop (Z.to_nat n_results) ranked)
    by (symmetry; apply take_drop).
  assert (Hhit : forall hit, hit ∈ hits ->
            exists (n : nat) r, xb ix !! n = Some r
              /\ hit = (l2sqr q (vector r), Z.of_nat n)).
  { intros hit Hin.
    assert (Hc : hit ∈ candidates ix q).
    { rewrite <- Hperm, Hsplit. apply elem_of_app. now left. }
    apply scores_elem in Hc as (n & r & Hr & ->). exists n, r. now split. }
  assert (Hrange : forall A (c : list A),
            length c = length (xb ix) ->
            forall i, i ∈ map snd hits -> 0 <= i < len c).
  { intros A c Hc i Hi. apply list_elem_of_fmap in Hi as (hit & -> & Hin).
    destruct (Hhit hit Hin) as (n & r & Hr & ->). simpl.
    apply lookup_lt_Some in Hr. unfold len. lia. }
  destruct (gather (documents self) (map snd hits) (Hrange _ _ Hdocs))
    as (docs & Hgd & Hld & Hpd).
  destruct (gather (metadatas self) (map snd hits) (Hrange _ _ Hmetas))
    as (metas & Hgm & Hlm & Hpm).
  exists hits, {| results_docs := docs; results_meta := metas;
                  results_dist := map fst hits |}.
  split; [|split; [|split; [|split; [|split; [|split; [|split]]]]]].
  - unfold query. rewrite Hix.
    destruct (len (documents self) =? 0) eqn:H0.
    { apply Z.eqb_eq in H0. destruct (documents self); [congruence|].
      unfold len in H0. simpl in H0. lia. }
    rewrite Hq. simpl. unfold index_search.
    rewrite Hdim, Nat.eqb_refl. simpl.
    fold (candidates ix q). fold ranked. fold n_results. fold hits.
    rewrite Hgd. simpl. rewrite Hgm. reflexivity.
  - unfold hits, len. rewrite length_take.
    assert (Hlen : length ranked = length (documents self)).
    { rewrite Hperm. unfold candidates. now rewrite scores_length. }
    rewrite Hlen. unfold n_results, len. lia.
  - simpl. now rewrite Hld, length_map.
  - simpl. now rewrite Hlm, length_map.
  - reflexivity.
  - intros i hit Hi. simpl.
    assert (Hin : hit ∈ hits) by (apply list_elem_of_lookup; eauto).
    destruct (Hhit hit Hin) as (n & r & Hr & ->). simpl.
    rewrite Nat2Z.id. split; [exists r; repeat split; auto; lia|].
    assert (Hs : map snd hits !! i = Some (Z.of_nat n)).
    { change (map snd hits) with (snd <$> hits). now rewrite list_lookup_fmap, Hi. }
    rewrite (Hpd _ _ Hs), (Hpm _ _ Hs), Nat2Z.id. now split.
  - rewrite Hsplit in Hsorted. now apply StronglySorted_app_1_l in Hsorted.
  - intros n r Hr Hout.
    assert (Hc : (l2sqr q (vector r), Z.of_nat n) ∈ candidates ix q).
    { apply scores_elem. exists n, r. now split. }
    rewrite <- Hperm, Hsplit in Hc. apply elem_of_app in Hc as [Hc | Hc]; [contradiction|].
    rewrite Forall_forall. intros hit Hin. rewrite Hsplit in Hsorted.
    now apply (StronglySorted_app_1_elem_of _ _ _ _ _ Hsorted).
Qed.

End Ranking.

(** *** The vector database on concrete calls *)

Example steady_calls_complete : Forall saves_complete steady_calls.
Proof. repeat constructor. Qed.

Lemma containers_stay_aligned_witness :
  let s := fst (run (FL := Z_floats) (init, empty_disk) measured_calls) in
  let known := entered (FL := Z_floats) (fun _ _ => False) measured_calls in
  aligned known s
  /\ counts_agree s
  /\ forall (i : nat) (text : value),
       documents s !! i = Some text ->
       exists chunk ix r,
         index s = Some ix /\ xb ix !! i = Some r
         /\ metadatas s !! i = Some (chunk_metadata chunk)
         /\ text = text_of chunk
         /\ known chunk (vector r).
Proof.
  apply (containers_stay_aligned (FL := Z_floats) (fun _ _ => False) empty_disk
           measured_calls).
  - exact I.
  - repeat constructor.
Defined.

(** The measured calls leave three documents, and the vectors of the
    index rows tell the texts they were embedded from apart: their first
    coordinates are the lengths of alpha, beta and beta. The reset in
    between changed nothing, its removal of the index file having
    raised. *)
Example measured_calls_example :
  let s := fst (run (FL := Z_floats) (init, empty_disk) measured_calls) in
  documents s = [VStr (py "alpha"); VStr (py "beta"); VStr (py "beta")]
  /\ option_map (fun ix => map (fun r => head (vector r)) (xb ix)) (index s)
     = Some [Some 5; Some 4; Some 4].
Proof. split; vm_compute; reflexivity. Qed.

(** C2 fails as stated. From a fresh database on an empty directory: one
    chunk is added and saved; a second chunk is added, and of the three
    writes of [_save] the one of documents.pkl raises (the exception is
    printed and dropped, and the write of metadata.pkl is skipped);
    [create_collection] is called again, as every upload does, and loads
    an index of two vectors beside one document and one metadata record.
    Every embedding had the fixed dimension. *)
Lemma alignment_counterexample :
  let self := fst (run (FL := Z_floats) (init, empty_disk) misaligning_calls) in
  (forall text, exists v, get_embedding steady_client text = Ok v
                          /\ length v = embedding_dim)
  /\ len (documents self) = 1
  /\ len (metadatas self) = 1
  /\ option_map ntotal (index self) = Some 2.
Proof.
  split; [intros text; eexists; split; reflexivity|].
  repeat split; vm_compute; reflexivity.
Qed.

(** C9 fails as stated. With one chunk stored, a [reset_database] whose
    removal of the index file raises returns normally, and the count is
    still 1 and the three artifacts are still there. *)
Lemma reset_counterexample :
  let s := run (FL := Z_floats) (init, empty_disk)
             [AddDocuments [chunk_a] (py "documents") (fun _ => steady_client) no_write_fault] in
  let s' := reset_database (fst s) (snd s) index_remove_fails in
  get_collection_count (fst s) = 1
  /\ get_collection_count (fst s') = 1
  /\ exists_ (index_file (snd s')) = true
  /\ exists_ (docs_file (snd s')) = true
  /\ exists_ (meta_file (snd s')) = true.
Proof. repeat split; vm_compute; reflexivity. Qed.

Example query_example :
  query (FL := Z_floats) tiny_db origin_client (py "anything") 2
  = Ok (@Build_QueryResult Z_floats
          [VStr (py "beta"); VStr (py "alpha")]
          [chunk_metadata chunk_b; chunk_metadata chunk_a]
          [1; 1]).
Proof. vm_compute. reflexivity. Qed.

Lemma query_on_empty_collection_witness :
  query (FL := Z_floats) init steady_client (py "anything") 5
  = Ok (@Build_QueryResult Z_floats [] [] []).
Proof.
  apply (query_on_empty_collection (FL := Z_floats) init steady_client (py "anything") 5).
  left. reflexivity.
Defined.

Lemma query_returns_nearest_witness :
  exists (hits : list (Z * Z)) (res : QueryResult (FL := Z_floats)),
    query (FL := Z_floats) tiny_db origin_client (py "anything") 2 = Ok res
    /\ len hits = Z.min 2 (len (documents tiny_db))
    /\ length (results_docs res) = length hits
    /\ length (results_meta res) = length hits
    /\ results_dist res = map fst hits
    /\ (forall (i : nat) hit, hits !! i = Some hit ->
         (exists r, xb tiny_index !! Z.to_nat (snd hit) = Some r
                    /\ 0 <= snd hit
                    /\ fst hit = l2sqr (FL := Z_floats) [0] (vector r))
         /\ results_docs res !! i = documents tiny_db !! Z.to_nat (snd hit)
         /\ results_meta res !! i = metadatas tiny_db !! Z.to_nat (snd hit))
    /\ StronglySorted (ranks_before (FL := Z_floats)) hits
    /\ (forall (n : nat) r, xb tiny_index !! n = Some r ->
         (l2sqr (FL := Z_floats) [0] (vector r), Z.of_nat n) ∉ hits ->
         Forall (fun hit => ranks_before (FL := Z_floats) hit
                              (l2sqr (FL := Z_floats) [0] (vector r), Z.of_nat n)) hits).
Proof.
  apply (query_returns_nearest (FL := Z_floats)).
  - intros x y. simpl. rewrite !Z.leb_le. lia.
  - intros x y z. simpl. rewrite !Z.leb_le. lia.
  - reflexivity.
  - discriminate.
  - reflexivity.
  - reflexivity.
  - reflexivity.
  - reflexivity.
  - lia.
Defined.

(** ** The chat bot *)

Section ChatBotFacts.

Context {U : Unicode} {FL : Floats}.

Abbreviation source := (gmap string svalue).

Abbreviation source_keys :=
  ({["chunk_id"; "source"; "title"; "text_preview"; "relevance_score"]} : gset string).

Lemma source_of_dom distances (i : nat) doc metadata s :
  source_of distances i doc metadata = Ok s -> dom s = source_keys.
Proof.
  unfold source_of.
  destruct doc as [|z|text]; simpl; try discriminate.
  destruct (py_index distances (Z.of_nat i)) as [d|e]; simpl; [|discriminate].
  intros [= <-]. rewrite !dom_insert_L, dom_singleton_L. set_solver.
Qed.

Lemma source_of_chunk_id distances (i : nat) doc metadata s :
  source_of distances i doc metadata = Ok s ->
  s !! "chunk_id" = Some (SVal (default (VInt (Z.of_nat i)) (metadata !! "chunk_id"))).
Proof.
  unfold source_of.
  destruct doc as [|z|text]; simpl; try discriminate.
  destruct (py_index distances (Z.of_nat i)) as [d|e]; simpl; [|discriminate].
  intros [= <-]. rewrite !lookup_insert_ne by done. apply lookup_singleton_eq.
Qed.

Lemma prepare_sources_dom distances (i : nat) docs metas sources :
  prepare_sources distances i docs metas = Ok sources ->
  Forall (fun s : source => dom s = source_keys) sources.
Proof.
  revert i metas sources. induction docs as [|doc docs IH]; intros i metas sources; simpl.
  - intros [= <-]. constructor.
  - destruct metas as [|metadata metas]; [intros [= <-]; constructor|].
    destruct (source_of distances i doc metadata) as [s|e] eqn:Hs; simpl; [|discriminate].
    destruct (prepare_sources distances (S i) docs metas) as [ss|e] eqn:Hss; simpl;
      [|discriminate].
    intros [= <-]. constructor; [now apply source_of_dom in Hs | now apply IH in Hss].
Qed.

Lemma error_answer_dom (e : exn) :
  dom (error_answer e) = ({["answer"; "sources"; "error"]} : gset string).
Proof. unfold error_answer. rewrite !dom_insert_L, dom_singleton_L. set_solver. Qed.

Lemma no_documents_answer_dom :
  dom no_documents_answer = ({["answer"; "sources"]} : gset string).
Proof. unfold no_documents_answer. rewrite !dom_insert_L, dom_singleton_L. set_solver. Qed.

(** C10. Every metadata record that [add_documents] stores holds exactly
    the keys source, chunk_id and title, and its chunk_id is a string: the
    [str] of the chunk's chunk_id, so the decimal digits of the integer the
    chunker gave it. The chunk's start_pos, end_pos and num_pages are not
    stored. The metadata [query] returns are records of the stored list;
    and a source of an answer built from such a record carries that string
    as chunk_id among exactly the keys chunk_id, source, title,
    text_preview and relevance_score, so no position. *)
Theorem stored_metadata_shape :
  (forall chunk : dict,
     dom (chunk_metadata chunk) = ({["source"; "chunk_id"; "title"]} : gset string)
     /\ chunk_metadata chunk !! "chunk_id"
        = Some (VStr (py_str (default (VInt 0) (chunk !! "chunk_id"))))
     /\ chunk_metadata chunk !! "start_pos" = None
     /\ chunk_metadata chunk !! "end_pos" = None
     /\ chunk_metadata chunk !! "num_pages" = None)
  /\ (forall (chunk : dict) (n : Z),
        chunk !! "chunk_id" = Some (VInt n) ->
        chunk_metadata chunk !! "chunk_id"
        = Some (VStr (py (NilZero.string_of_int (Z.to_int n)))))
  /\ (forall self disk chunks name client io self' disk',
        add_documents self disk chunks name client io = (self', disk', Ok tt) ->
        exists before, metadatas self' = before ++ map chunk_metadata chunks)
  /\ (forall self feature_extraction query_text n_results res,
        query self feature_extraction query_text n_results = Ok res ->
        forall metadata, metadata ∈ results_meta res -> metadata ∈ metadatas self)
  /\ (forall distances (i : nat) doc (chunk : dict) (s : source),
        source_of distances i doc (chunk_metadata chunk) = Ok s ->
        s !! "chunk_id"
        = Some (SVal (VStr (py_str (default (VInt 0) (chunk !! "chunk_id")))))
        /\ dom s = source_keys
        /\ s !! "start_pos" = None /\ s !! "end_pos" = None).
Proof.
  split; [|split; [|split; [|split]]].
  - intros chunk. split; [apply chunk_metadata_dom|].
    split; [apply chunk_metadata_chunk_id|].
    repeat split; now apply chunk_metadata_absent.
  - intros chunk n Hn. now rewrite chunk_metadata_chunk_id, Hn.
  - intros self disk chunks name client io self' disk' H.
    apply add_documents_ok in H. cbv zeta in H.
    destruct H as (ix & rows & _ & _ & _ & _ & Hm & _). eauto.
  - intros self fe text n res. apply query_metadata_stored.
  - intros distances i doc chunk s Hs.
    pose proof (source_of_dom _ _ _ _ _ Hs) as Hdom.
    split; [|split; [exact Hdom|]].
    + rewrite (source_of_chunk_id _ _ _ _ _ Hs), chunk_metadata_chunk_id. reflexivity.
    + split; apply not_elem_of_dom; rewrite Hdom;
        rewrite !elem_of_union, !elem_of_singleton; intros H;
        repeat (destruct H as [H|H]); discriminate.
Qed.

(** C5. [answer_question] returns a record on every question and every
    database state and raises nothing: when anything in its [try] block
    raises an exception e, the record returned has the answer
    "Error generating answer: " followed by str(e), and the empty list as
    sources. So it is when the embedding call of the retrieval fails, and
    when the generation call fails, each with its own wrapped message;
    and when nothing raises, the record is the one the block built. *)
Theorem answer_question_never_raises (vector_db : VectorDatabase)
    (feature_extraction : value -> result extraction)
    (chat_completion : str -> Z -> result completion)
    (question : str) (n_context_docs : Z) :
  let answer :=
    answer_question vector_db feature_extraction chat_completion question n_context_docs in
  let attempt :=
    answer_question_try vector_db feature_extraction chat_completion question
      n_context_docs in
  (forall e, attempt = Raise e ->
     answer !! "answer" = Some (RStr (py "Error generating answer: " ++ exn_str e))
     /\ answer !! "sources" = Some (RSources []))
  /\ (forall built, attempt = Ok built -> answer = built)
  /\ (forall ix e,
        index vector_db = Some ix -> documents vector_db <> [] ->
        feature_extraction (VStr question) = Raise e ->
        answer !! "answer"
        = Some (RStr (py "Error generating answer: "
                      ++ (py "Error getting embedding: " ++ exn_str e)))
        /\ answer !! "sources" = Some (RSources []))
  /\ (forall res e,
        query vector_db feature_extraction question n_context_docs = Ok res ->
        results_docs res <> [] ->
        chat_completion (create_rag_prompt question (results_docs res)) 500 = Raise e ->
        answer !! "answer"
        = Some (RStr (py "Error generating answer: "
                      ++ (py "Error generating response: " ++ exn_str e)))
        /\ answer !! "sources" = Some (RSources [])).
Proof.
  intros answer attempt.
  assert (Hraise : forall e, attempt = Raise e ->
            answer !! "answer" = Some (RStr (py "Error generating answer: " ++ exn_str e))
            /\ answer !! "sources" = Some (RSources [])).
  { intros e He. unfold answer, answer_question. fold attempt. rewrite He.
    unfold error_answer. split.
    - rewrite !lookup_insert_ne by done. apply lookup_singleton_eq.
    - rewrite lookup_insert_ne by done. apply lookup_insert_eq. }
  split; [exact Hraise|]. split; [|split].
  - intros built Hb. unfold answer, answer_question. fold attempt. now rewrite Hb.
  - intros ix e Hix Hne Hfe.
    apply (Hraise (Exn "Exception" (py "Error getting embedding: " ++ exn_str e))).
    unfold attempt, answer_question_try, query. rewrite Hix.
    destruct (len (documents vector_db) =? 0) eqn:H0.
    { apply Z.eqb_eq in H0. destruct (documents vector_db); [congruence|].
      unfold len in H0. simpl in H0. lia. }
    unfold get_embedding. now rewrite Hfe.
  - intros res e Hq Hne Hcc.
    apply (Hraise (Exn "Exception" (py "Error generating response: " ++ exn_str e))).
    unfold attempt, answer_question_try. rewrite Hq. simpl.
    destruct (results_docs res) as [|doc docs] eqn:Hd; [congruence|].
    unfold generate_response. now rewrite Hcc.
Qed.

(** C7, amended. Every record [answer_question] returns has an answer
    string and a sources list, whose elements carry exactly chunk_id,
    source, title, text_preview and relevance_score. The key context_used
    is there only when documents were retrieved and nothing raised; it is
    then the number of retrieved documents. The record for an empty
    result holds answer and sources alone, and the record for a caught
    exception holds answer, sources and error. *)
Theorem answer_record_shape (vector_db : VectorDatabase)
    (feature_extraction : value -> result extraction)
    (chat_completion : str -> Z -> result completion)
    (question : str) (n_context_docs : Z) :
  let answer :=
    answer_question vector_db feature_extraction chat_completion question n_context_docs in
  (exists text sources,
     answer !! "answer" = Some (RStr text)
     /\ answer !! "sources" = Some (RSources sources)
     /\ Forall (fun s : source => dom s = source_keys) sources)
  /\ ((exists res,
         query vector_db feature_extraction question n_context_docs = Ok res
         /\ results_docs res <> []
         /\ dom answer = ({["answer"; "sources"; "context_used"]} : gset string)
         /\ answer !! "context_used" = Some (RInt (len (results_docs res))))
      \/ (exists res,
            query vector_db feature_extraction question n_context_docs = Ok res
            /\ results_docs res = []
            /\ answer = no_documents_answer
            /\ dom answer = ({["answer"; "sources"]} : gset string))
      \/ (exists e,
            answer_question_try vector_db feature_extraction chat_completion question
              n_context_docs = Raise e
            /\ answer = error_answer e
            /\ dom answer = ({["answer"; "sources"; "error"]} : gset string))).
Proof.
  intros answer. unfold answer, answer_question, answer_question_try.
  assert (Herr : forall e,
            exists text sources,
              error_answer e !! "answer" = Some (RStr text)
              /\ error_answer e !! "sources" = Some (RSources sources)
              /\ Forall (fun s : source => dom s = source_keys) sources).
  { intros e. eexists _, []. unfold error_answer.
    split; [dict_lookup|]. split; [dict_lookup|constructor]. }
  destruct (query vector_db feature_extraction question n_context_docs) as [res|e] eqn:Hq;
    cbn [bind].
  - destruct (results_docs res) as [|doc docs] eqn:Hd.
    + split.
      * eexists _, []. unfold no_documents_answer.
        split; [dict_lookup|]. split; [dict_lookup|constructor].
      * right. left. exists res. repeat split; auto.
    + destruct (generate_response chat_completion _ 500) as [text|e] eqn:Hg; cbn [bind].
      * destruct (prepare_sources (results_dist res) 0 (doc :: docs) (results_meta res))
          as [sources|e] eqn:Hs; cbn [bind].
        -- split.
           ++ exists text, sources.
              split; [dict_lookup|]. split; [dict_lookup|].
              now apply prepare_sources_dom in Hs.
           ++ left. exists res. rewrite Hd. repeat split; auto.
        -- split; [apply Herr|].
           right. right. exists e. repeat split.
      * split; [apply Herr|].
        right. right. exists e. repeat split.
  - split; [apply Herr|].
    right. right. exists e. repeat split.
Qed.

End ChatBotFacts.

(** *** The chat bot on concrete calls *)

Example create_rag_prompt_example :
  create_rag_prompt (py "Why?") [VStr (py "One."); VStr (py "Two.")]
  = py "You are a helpful AI assistant. Answer the question based ONLY on the provided context. If the answer cannot be found in the context, say "
    ++ [quote]
    ++ py "I don't have enough information to answer this question based on the provided documents."
    ++ [quote; newline; newline]
    ++ py "Context:" ++ [newline]
    ++ py "Document 1:" ++ [newline] ++ py "One." ++ [newline; newline]
    ++ py "Document 2:" ++ [newline] ++ py "Two." ++ [newline; newline]
    ++ py "Question: Why?" ++ [newline; newline]
    ++ py "Provide a clear, concise answer based on the context above.".
Proof. vm_compute. reflexivity. Qed.

(** The three nearest rows, equally close, in insertion order. *)
Example answer_question_example :
  answer_question (U := ascii_unicode) (FL := Z_floats) tiny_db origin_client steady_chat
    (py "What?") 3
  = <["context_used" := RInt 3]>
      (<["sources" := RSources
           [ <["relevance_score" := SNum (FL := Z_floats) 0]>
               (<["text_preview" := SVal (VStr (py "beta"))]>
                 (<["title" := SVal (VStr (py "Unknown"))]>
                   (<["source" := SVal (VStr (py "a.pdf"))]>
                     {["chunk_id" := SVal (VStr (py "1"))]})));
             <["relevance_score" := SNum (FL := Z_floats) 0]>
               (<["text_preview" := SVal (VStr (py "alpha"))]>
                 (<["title" := SVal (VStr (py "Unknown"))]>
                   (<["source" := SVal (VStr (py "a.pdf"))]>
                     {["chunk_id" := SVal (VStr (py "0"))]})));
             <["relevance_score" := SNum (FL := Z_floats) 0]>
               (<["text_preview" := SVal (VStr (py "beta"))]>
                 (<["title" := SVal (VStr (py "Unknown"))]>
                   (<["source" := SVal (VStr (py "a.pdf"))]>
                     {["chunk_id" := SVal (VStr (py "1"))]}))) ]]>
        {["answer" := RStr (py "Alpha.")]}).
Proof. vm_compute. reflexivity. Qed.

(** C7 fails as stated. On a database with no documents the record is the
    fixed one with answer and sources only; when the embedding service is
    down the record has answer, sources and error. Neither has
    context_used. *)
Lemma answer_shape_counterexample :
  (answer_question (U := ascii_unicode) (FL := Z_floats) init steady_client steady_chat
     (py "What?") 3 = no_documents_answer
   /\ no_documents_answer (FL := Z_floats) !! "context_used" = None)
  /\ (answer_question (U := ascii_unicode) (FL := Z_floats) tiny_db failing_client
        steady_chat (py "What?") 3
      = error_answer (Exn "Exception" (py "Error getting embedding: 503"))
      /\ error_answer (FL := Z_floats) (Exn "Exception" (py "Error getting embedding: 503"))
           !! "context_used" = None
      /\ error_answer (FL := Z_floats) (Exn "Exception" (py "Error getting embedding: 503"))
           !! "error" = Some (RStr (py "Error getting embedding: 503"))).
Proof. repeat split; vm_compute; reflexivity. Qed.

(** * Further properties *)

(** ** Cleaning and chunking *)

Section ChunkerMore.

Context {U : Unicode}.

Lemma lstrip_elem (s : str) (c : char) : c ∈ lstrip s -> c ∈ s.
Proof.
  induction s as [|x s IH]; simpl; [trivial|].
  destruct (isspace x); [intros H; right; now apply IH | trivial].
Qed.

Lemma strip_elem (s : str) (c : char) : c ∈ strip s -> c ∈ s.
Proof.
  unfold strip, rstrip. rewrite !list_elem_of_In, <- in_rev, <- !list_elem_of_In.
  intros H. apply lstrip_elem in H. rewrite list_elem_of_In, <- in_rev, <- list_elem_of_In in H.
  now apply lstrip_elem.
Qed.

Lemma lstrip_length (s : str) : (length (lstrip s) <= length s)%nat.
Proof. induction s as [|x s IH]; simpl; [lia|]. destruct (isspace x); simpl; lia. Qed.

Lemma strip_length (s : str) : (length (strip s) <= length s)%nat.
Proof.
  unfold strip, rstrip. rewrite length_rev.
  etransitivity; [apply lstrip_length|]. rewrite length_rev. apply lstrip_length.
Qed.

Lemma last_rev_head {A} (l : list A) : last (rev l) = head l.
Proof. destruct l as [|x l]; [reflexivity|]. simpl. apply last_snoc. Qed.

Lemma strip_head (s : str) (c : char) : head (strip s) = Some c -> isspace c = false.
Proof.
  unfold strip. destruct (lstrip_head s) as [-> | (x & s' & -> & Hx)]; [discriminate|].
  destruct (rstrip_keeps_head x s' Hx) as [t ->]. now intros [= <-].
Qed.

Lemma strip_last (s : str) (c : char) : last (strip s) = Some c -> isspace c = false.
Proof.
  unfold strip, rstrip. rewrite last_rev_head.
  destruct (lstrip_head (rev (lstrip s))) as [-> | (x & s' & -> & Hx)]; [discriminate|].
  now intros [= <-].
Qed.

Lemma sub_whitespace_runs_elem (text : str) (in_run : bool) (c : char) :
  c ∈ sub_whitespace_runs text in_run ->
  (c ∈ text /\ isspace c = false) \/ c = ch " ".
Proof.
  revert in_run. induction text as [|x text IH]; intros in_run; simpl.
  - intros H. inversion H.
  - destruct (isspace x) eqn:Hx.
    + destruct in_run.
      * intros H. destruct (IH _ H) as [[H1 H2]|H1]; [left; split; [now right|trivial] | now right].
      * intros H. apply elem_of_cons in H as [-> | H]; [now right|].
        destruct (IH _ H) as [[H1 H2]|H1]; [left; split; [now right|trivial] | now right].
    + intros H. apply elem_of_cons in H as [-> | H]; [left; split; [left|trivial]|].
      destruct (IH _ H) as [[H1 H2]|H1]; [left; split; [now right|trivial] | now right].
Qed.

(** X1. Every character of a cleaned text is allowed: a word character,
    whitespace or one of [. , ! ? ; : ( ) -]; it is a character of the
    input or the space that replaced a whitespace run; the only whitespace
    left is that space; and the text neither starts nor ends with
    whitespace. *)
Theorem clean_text_characters (text : str) :
  (forall c, c ∈ clean_text text ->
     allowed c = true
     /\ (c ∈ text \/ c = ch " ")
     /\ (isspace c = true -> c = ch " "))
  /\ (forall c, head (clean_text text) = Some c -> isspace c = false)
  /\ (forall c, last (clean_text text) = Some c -> isspace c = false).
Proof.
  unfold clean_text. split; [|split].
  - intros c Hc. apply strip_elem in Hc.
    rewrite list_elem_of_In in Hc. apply filter_In in Hc as [Hc Ha].
    rewrite <- list_elem_of_In in Hc.
    apply sub_whitespace_runs_elem in Hc. split; [exact Ha|].
    destruct Hc as [[Hin Hs] | ->].
    + split; [now left | congruence].
    + split; [now right | trivial].
  - intros c. apply strip_head.
  - intros c. apply strip_last.
Qed.

Lemma lstrip_all_space (s : str) : Forall (fun c => isspace c = true) s -> lstrip s = [].
Proof. induction 1 as [|x s Hx _ IH]; simpl; [reflexivity|]. now rewrite Hx. Qed.

Lemma sub_whitespace_runs_all_space (text : str) (in_run : bool) :
  isspace (ch " ") = true ->
  Forall (fun c => isspace c = true) text ->
  Forall (fun c => isspace c = true) (sub_whitespace_runs text in_run).
Proof.
  intros Hsp H. revert in_run. induction H as [|x s Hx _ IH]; intros in_run; simpl;
    [constructor|].
  rewrite Hx. destruct in_run; [apply IH | constructor; [exact Hsp | apply IH]].
Qed.

(** X2. A text that is empty or holds nothing but whitespace is cleaned
    to the empty text and yields no chunk at all, whatever the chunking
    parameters and the metadata (the space being whitespace). *)
Theorem whitespace_only_text_yields_no_chunk (text : str) :
  isspace (ch " ") = true ->
  Forall (fun c => isspace c = true) text ->
  clean_text text = []
  /\ forall h metadata chunks, chunk_text h text metadata chunks <-> chunks = [].
Proof.
  intros Hsp Hall.
  assert (Hclean : clean_text text = []).
  { unfold clean_text, strip.
    rewrite (lstrip_all_space (List.filter allowed (sub_whitespace_runs text false)));
      [reflexivity|].
    apply Forall_forall. intros c Hc. rewrite list_elem_of_In in Hc.
    apply filter_In in Hc as [Hc _]. rewrite <- list_elem_of_In in Hc.
    pose proof (sub_whitespace_runs_all_space text false Hsp Hall) as Hf.
    rewrite Forall_forall in Hf. now apply Hf. }
  split; [exact Hclean|]. intros h md chunks.
  assert (Hrun : chunk_text h text md []).
  { exists O. unfold chunk_text_fuel. now rewrite Hclean. }
  split; [intros H; now apply (chunk_text_deterministic h text md) | now intros ->].
Qed.

Lemma slice_lookup {A} (l : list A) (lo hi : Z) (i : nat) :
  0 <= lo -> 0 <= hi ->
  slice l lo hi !! i
  = if decide (lo + Z.of_nat i < hi) then l !! (Z.to_nat lo + i)%nat else None.
Proof.
  intros Hlo Hhi. unfold slice, clamp_index, len.
  destruct (lo <? 0) eqn:H1; [apply Z.ltb_lt in H1; lia|].
  destruct (hi <? 0) eqn:H2; [apply Z.ltb_lt in H2; lia|].
  set (n := length l).
  destruct (decide (lo + Z.of_nat i < hi)) as [Hin|Hout].
  - destruct (decide (lo + Z.of_nat i < Z.of_nat n)) as [Hn|Hn].
    + rewrite lookup_take_lt by lia. rewrite lookup_drop. f_equal. lia.
    + rewrite (proj2 (lookup_ge_None l (Z.to_nat lo + i)%nat)) by (fold n; lia).
      destruct (decide (i < Z.to_nat (Z.min hi (Z.of_nat n) - Z.min lo (Z.of_nat n)))%nat).
      * rewrite lookup_take_lt by lia. rewrite lookup_drop.
        apply lookup_ge_None. fold n. lia.
      * apply lookup_take_ge. lia.
  - apply lookup_take_ge. lia.
Qed.

Lemma slice_length {A} (l : list A) (lo hi : Z) :
  0 <= lo -> 0 <= hi -> len (slice l lo hi) <= Z.max 0 (hi - lo).
Proof.
  intros Hlo Hhi. unfold slice, clamp_index, len.
  destruct (lo <? 0) eqn:H1; [apply Z.ltb_lt in H1; lia|].
  destruct (hi <? 0) eqn:H2; [apply Z.ltb_lt in H2; lia|].
  rewrite length_take, length_drop. lia.
Qed.

Lemma slice_slice {A} (l : list A) (lo hi k : Z) :
  0 <= lo -> 0 <= k <= hi - lo -> slice (slice l lo hi) 0 k = slice l lo (lo + k).
Proof.
  intros Hlo Hk. apply list_eq. intros i.
  rewrite !slice_lookup by lia.
  destruct (decide (0 + Z.of_nat i < k)), (decide (lo + Z.of_nat i < lo + k)); try lia;
    [|reflexivity].
  destruct (decide (lo + Z.of_nat (Z.to_nat 0 + i) < hi)); [|lia]. reflexivity.
Qed.

Lemma rfind_from_spec (c : char) (s : str) (i found : Z) :
  rfind_from c s i found = found
  \/ (i <= rfind_from c s i found < i + len s
      /\ s !! Z.to_nat (rfind_from c s i found - i) = Some c).
Proof.
  revert i found. induction s as [|x s IH]; intros i found; simpl; [now left|].
  destruct (IH (i + 1) (if N.eqb x c then i else found)) as [Heq | [Hr Hl]].
  - rewrite Heq. destruct (N.eqb x c) eqn:Hx; [|now left].
    apply N.eqb_eq in Hx. subst x. right. unfold len. simpl length.
    split; [lia|]. now replace (i - i) with 0 by lia.
  - right. unfold len in *. simpl length. split; [lia|].
    replace (Z.to_nat (rfind_from c s (i + 1) (if N.eqb x c then i else found) - i))
      with (S (Z.to_nat (rfind_from c s (i + 1) (if N.eqb x c then i else found) - (i + 1))))
      by lia.
    exact Hl.
Qed.

(** [rfind] answers -1 or a position that holds the character. *)
Lemma rfind_spec (s : str) (c : char) :
  rfind s c = -1 \/ (0 <= rfind s c < len s /\ s !! Z.to_nat (rfind s c) = Some c).
Proof.
  unfold rfind. destruct (rfind_from_spec c s 0 (-1)) as [H | [H1 H2]]; [now left|].
  right. split; [lia|]. now rewrite Z.sub_0_r in H2.
Qed.

(** Where a sentence boundary cuts a window, a terminator stands. *)
Lemma sentence_break_terminator h text start se :
  0 <= chunk_size h ->
  sentence_break h text start = Some se ->
  0 <= se < len (slice text start (start + chunk_size h))
  /\ exists t, slice text start (start + chunk_size h) !! Z.to_nat se = Some t
               /\ t ∈ [ch "."; ch "?"; ch "!"].
Proof.
  intros Hcs Hb. pose proof (sentence_break_Some _ _ _ _ Hb) as [Hhalf _].
  assert (H0 : 0 <= chunk_size h / 2) by (apply Z.div_pos; lia).
  revert Hb. unfold sentence_break.
  destruct (start + chunk_size h <? len text); [|discriminate].
  set (chunk := slice text start (start + chunk_size h)).
  destruct (chunk_size h / 2 <? Z.max (Z.max (rfind chunk (ch ".")) (rfind chunk (ch "?")))
                                      (rfind chunk (ch "!"))); [|discriminate].
  intros Heq. apply (inj Some) in Heq.
  destruct (rfind_spec chunk (ch ".")) as [Hp | [Hp1 Hp2]];
    destruct (rfind_spec chunk (ch "?")) as [Hq | [Hq1 Hq2]];
    destruct (rfind_spec chunk (ch "!")) as [He | [He1 He2]];
    destruct (Z.max_spec (rfind chunk (ch ".")) (rfind chunk (ch "?"))) as [[_ Hm] | [_ Hm]];
    destruct (Z.max_spec (Z.max (rfind chunk (ch ".")) (rfind chunk (ch "?")))
                (rfind chunk (ch "!"))) as [[_ Hm'] | [_ Hm']];
    rewrite Hm' in Heq; rewrite ?Hm in Heq; try lia; subst se;
    (split; [lia|]); eexists; (split; [eassumption|]); solve [repeat constructor].
Qed.

(** The chunk of an iteration is the text between its start and its end. *)
Lemma window_chunk h text start :
  0 <= start -> 0 <= chunk_size h ->
  fst (window h text start) = slice text start (snd (window h text start)).
Proof.
  intros Hs Hcs. unfold window.
  destruct (sentence_break h text start) as [se|] eqn:Hb; [|reflexivity].
  simpl. destruct (sentence_break_terminator h text start se Hcs Hb) as [Hse _].
  pose proof (slice_length text start (start + chunk_size h)).
  rewrite slice_slice by lia. f_equal. lia.
Qed.

(** With parameters that move the window forward, [chunk_text] returns
    the chunks of a chain of spans from position 0. *)
Lemma chunk_text_chain h text md :
  well_configured h ->
  exists ws, chained h (clean_text text) 0 ws
    /\ chunk_text h text md (imap (span_chunk h (clean_text text) md) ws).
Proof.
  intros Hh. destruct (chunk_text_returns h text md Hh) as (ws & Hws & Hrun).
  exists ws. split; [now apply spans_chained in Hws | eexists; exact Hrun].
Qed.

Lemma span_chunk_text h text md (i : nat) (w : Z * Z) :
  reserves md "text" ->
  span_chunk h text md i w !! "text" = Some (VStr (strip (fst (window h text (fst w))))).
Proof.
  intros Hr. unfold span_chunk. rewrite (chunk_data_lookup _ _ _ _ _ _ Hr). dict_lookup.
Qed.

(** X3. For a handler with 0 <= chunk_overlap < chunk_size and
    chunk_overlap <= chunk_size // 2 + 1 (the defaults 1000 and 200 are
    such), and metadata that defines none of text, chunk_id, start_pos
    and end_pos, [chunk_text] returns chunks that are numbered 0, 1,
    2, ... in the order returned; each starts inside the cleaned text, and
    the text of each is the cleaned text from its start_pos to its
    end_pos with the surrounding whitespace stripped. *)
Theorem chunk_fields (h : PDFHandler) (text : str) (metadata : option dict) :
  well_configured h ->
  reserves metadata "text" -> reserves metadata "chunk_id" ->
  reserves metadata "start_pos" -> reserves metadata "end_pos" ->
  exists chunks,
    chunk_text h text metadata chunks
    /\ forall (i : nat) c, chunks !! i = Some c ->
         c !! "chunk_id" = Some (VInt (Z.of_nat i))
         /\ exists s e,
              span_of c = Some (s, e)
              /\ 0 <= s < len (clean_text text) /\ s < e
              /\ c !! "text" = Some (VStr (strip (slice (clean_text text) s e))).
Proof.
  intros Hh Ht Hid Hs He.
  destruct (chunk_text_chain h text metadata Hh) as (ws & Hws & Hrun).
  eexists. split; [exact Hrun|]. intros i c. rewrite list_lookup_imap.
  destruct (ws !! i) as [w|] eqn:Hi; [|discriminate]. simpl. intros [= <-].
  destruct (chained_lookup h _ Hh ws 0 i w Hws Hi) as (H0 & Hlt & Hend & _).
  pose proof (window_advance h (clean_text text) (fst w) Hh) as Hadv.
  destruct Hh as (Hov & Hcs & _). split.
  - unfold span_chunk. rewrite (chunk_data_lookup _ _ _ _ _ _ Hid). dict_lookup.
  - exists (fst w), (snd w). rewrite span_of_span_chunk by assumption.
    split; [now destruct w|]. split; [lia|]. split; [lia|].
    rewrite span_chunk_text by assumption.
    rewrite window_chunk by lia. now rewrite <- Hend.
Qed.

(** X4. For a handler with 0 <= chunk_overlap < chunk_size and
    chunk_overlap <= chunk_size // 2 + 1 (the defaults 1000 and 200 are
    such), and metadata that defines none of text, start_pos and end_pos,
    [chunk_text] returns chunks of which no text is longer than
    chunk_size and no recorded span is wider. *)
Theorem chunk_size_bound (h : PDFHandler) (text : str) (metadata : option dict) :
  well_configured h ->
  reserves metadata "text" ->
  reserves metadata "start_pos" -> reserves metadata "end_pos" ->
  exists chunks,
    chunk_text h text metadata chunks
    /\ Forall (fun c : dict =>
                 exists t s e,
                   c !! "text" = Some (VStr t) /\ span_of c = Some (s, e)
                   /\ len t <= chunk_size h /\ e - s <= chunk_size h) chunks.
Proof.
  intros Hh Ht Hs He.
  destruct (chunk_text_chain h text metadata Hh) as (ws & Hws & Hrun).
  eexists. split; [exact Hrun|]. apply Forall_lookup. intros i c.
  rewrite list_lookup_imap.
  destruct (ws !! i) as [w|] eqn:Hi; [|discriminate]. simpl. intros [= <-].
  destruct (chained_lookup h _ Hh ws 0 i w Hws Hi) as (H0 & Hlt & Hend & _).
  pose proof (window_advance h (clean_text text) (fst w) Hh) as Hadv.
  rewrite <- Hend in Hadv.
  destruct Hh as (Hov & Hcs & _).
  assert (Hwide : snd w - fst w <= chunk_size h).
  { rewrite Hend, window_end.
    destruct (sentence_break h (clean_text text) (fst w)) as [se|] eqn:Hb; [|lia].
    destruct (sentence_break_terminator h _ _ se ltac:(lia) Hb) as [Hse _].
    pose proof (slice_length (clean_text text) (fst w) (fst w + chunk_size h)). lia. }
  eexists _, (fst w), (snd w). split; [now apply span_chunk_text|].
  rewrite span_of_span_chunk by assumption. split; [now destruct w|]. split; [|exact Hwide].
  rewrite window_chunk by lia. rewrite <- Hend.
  pose proof (strip_length (slice (clean_text text) (fst w) (snd w))) as Hl.
  pose proof (slice_length (clean_text text) (fst w) (snd w)) as Hl'.
  unfold len in *. lia.
Qed.

(** X5. For a handler with 0 <= chunk_overlap < chunk_size and
    chunk_overlap <= chunk_size // 2 + 1 (the defaults 1000 and 200 are
    such), and metadata that defines neither start_pos nor end_pos,
    [chunk_text] returns chunks each of which either records a full
    window, end_pos = start_pos + chunk_size, or was cut at a sentence
    boundary: it is then wider than chunk_size // 2 + 1, ends before the
    end of the cleaned text, and the last character of its span is [.],
    [?] or [!]. *)
Theorem chunk_ends_at_window_or_sentence (h : PDFHandler) (text : str)
    (metadata : option dict) :
  well_configured h ->
  reserves metadata "start_pos" -> reserves metadata "end_pos" ->
  exists chunks,
    chunk_text h text metadata chunks
    /\ Forall (fun c : dict =>
                 exists s e,
                   span_of c = Some (s, e)
                   /\ (e = s + chunk_size h
                       \/ (chunk_size h / 2 + 1 < e - s
                           /\ e < len (clean_text text)
                           /\ exists t, clean_text text !! Z.to_nat (e - 1) = Some t
                                        /\ t ∈ [ch "."; ch "?"; ch "!"]))) chunks.
Proof.
  intros Hh Hs He.
  destruct (chunk_text_chain h text metadata Hh) as (ws & Hws & Hrun).
  eexists. split; [exact Hrun|]. apply Forall_lookup. intros i c.
  rewrite list_lookup_imap.
  destruct (ws !! i) as [w|] eqn:Hi; [|discriminate]. simpl. intros [= <-].
  destruct (chained_lookup h _ Hh ws 0 i w Hws Hi) as (H0 & Hlt & Hend & _).
  destruct Hh as (Hov & Hcs & _).
  exists (fst w), (snd w). rewrite span_of_span_chunk by assumption.
  split; [now destruct w|]. rewrite Hend, window_end.
  destruct (sentence_break h (clean_text text) (fst w)) as [se|] eqn:Hb; [|now left].
  right. destruct (sentence_break_Some _ _ _ _ Hb) as [Hhalf Hshort].
  destruct (sentence_break_terminator h _ _ se ltac:(lia) Hb) as (Hse & t & Hl & Hin).
  pose proof (slice_length (clean_text text) (fst w) (fst w + chunk_size h)) as Hsl.
  split; [lia|]. split; [lia|]. exists t. split; [|exact Hin].
  rewrite slice_lookup in Hl by lia.
  destruct (decide (fst w + Z.of_nat (Z.to_nat se) < fst w + chunk_size h)); [|discriminate].
  rewrite <- Hl. f_equal. lia.
Qed.

(** X6. For every handler, text and metadata dictionary: whenever
    [chunk_text] returns, whatever the dictionary holds is found in every
    chunk, under the same keys with the same values, also where it
    overrides one of the chunker's own keys, and the keys of a chunk are
    those of the metadata and text, start_pos, end_pos and chunk_id. It
    does return for a handler with 0 <= chunk_overlap < chunk_size and
    chunk_overlap <= chunk_size // 2 + 1. *)
Theorem metadata_is_merged (h : PDFHandler) (text : str) (md : dict) :
  (forall chunks,
     chunk_text h text (Some md) chunks ->
     Forall (fun c : dict =>
               (forall key v, md !! key = Some v -> c !! key = Some v)
               /\ dom c = dom md ∪ ({["text"; "start_pos"; "end_pos"; "chunk_id"]}
                                     : gset string)) chunks)
  /\ (well_configured h -> exists chunks, chunk_text h text (Some md) chunks).
Proof.
  split.
  - intros chunks [fuel Hrun]. rewrite chunk_text_fuel_spans in Hrun.
    destruct (spans fuel h (clean_text text) 0) as [ws|]; [|discriminate].
    apply (inj Some) in Hrun. subst chunks.
    apply Forall_lookup. intros i c. rewrite list_lookup_imap.
    destruct (ws !! i) as [w|] eqn:Hi; [|discriminate]. simpl. intros [= <-].
    unfold span_chunk, chunk_data. destruct (decide (md = ∅)) as [-> | Hne].
    + split; [intros key v Hk; now rewrite lookup_empty in Hk|].
      rewrite !dom_insert_L, dom_singleton_L, dom_empty_L. set_solver.
    + split; [intros key v Hk; now apply lookup_union_Some_l|].
      rewrite dom_union_L, !dom_insert_L, dom_singleton_L. set_solver.
  - intros Hh. destruct (chunk_text_chain h text (Some md) Hh) as (ws & _ & Hrun).
    eexists. exact Hrun.
Qed.

End ChunkerMore.

(** ** From a PDF to stored metadata *)

Section PipelineFacts.

Context {U : Unicode}.

Lemma extract_pages_ok (texts : list str) (n : nat) (t : str) (ts : list (Z * str)) :
  exists r, extract_pages (map Ok texts) n t ts = Ok r.
Proof.
  revert n t ts. induction texts as [|x texts IH]; intros n t ts; simpl; [eauto|apply IH].
Qed.

Lemma extract_pages_raise (texts : list str) (e : exn) (rest : list (result str))
    (n : nat) (t : str) (ts : list (Z * str)) :
  extract_pages (map Ok texts ++ Raise e :: rest) n t ts = Raise e.
Proof.
  revert n t ts. induction texts as [|x texts IH]; intros n t ts; simpl; [reflexivity|apply IH].
Qed.

(** X7. [process_pdf] of a handler with 0 <= chunk_overlap < chunk_size
    and chunk_overlap <= chunk_size // 2 + 1 (the defaults 1000 and 200
    are such): when the file opens and every page gives its text, it
    returns chunks that each carry the path as source, the page count as
    num_pages, the document title (or Unknown) as title and their rank as
    chunk_id, so that the metadata record [add_documents] stores for
    chunk i is source = path, chunk_id = str(i), title = title. For every
    handler: when the open raises e, or the first page whose extraction
    raises does so with e, it raises an Exception with the message
    Error extracting text from PDF: e. *)
Theorem process_pdf_chunks (h : PDFHandler) (open_pdf : str -> result PdfReader)
    (pdf_path : str) :
  (well_configured h ->
   forall reader texts,
     open_pdf pdf_path = Ok reader -> pages reader = map Ok texts ->
     exists chunks,
       process_pdf h open_pdf pdf_path (Ok chunks)
       /\ forall (i : nat) c, chunks !! i = Some c ->
            c !! "source" = Some (VStr pdf_path)
            /\ c !! "num_pages" = Some (VInt (len texts))
            /\ c !! "title" = Some (info_field reader "/Title")
            /\ c !! "chunk_id" = Some (VInt (Z.of_nat i))
            /\ chunk_metadata c
               = <["title" := info_field reader "/Title"]>
                   (<["chunk_id" := VStr (py_str (VInt (Z.of_nat i)))]>
                     {["source" := VStr pdf_path]}))
  /\ (forall e, open_pdf pdf_path = Raise e ->
        process_pdf h open_pdf pdf_path
          (Raise (Exn "Exception" (py "Error extracting text from PDF: " ++ exn_str e))))
  /\ (forall reader texts e rest,
        open_pdf pdf_path = Ok reader -> pages reader = map Ok texts ++ Raise e :: rest ->
        process_pdf h open_pdf pdf_path
          (Raise (Exn "Exception" (py "Error extracting text from PDF: " ++ exn_str e)))).
Proof.
  split; [|split].
  - intros Hh reader texts Hopen Hpages.
    destruct (extract_pages_ok texts 0 [] []) as [r Hr].
    set (info := {| num_pages := len (pages reader);
                    title := info_field reader "/Title";
                    author := info_field reader "/Author" |}).
    set (md := pdf_chunk_metadata pdf_path info).
    assert (Hex : extract_text_from_pdf open_pdf pdf_path
                  = Ok {| full_text := fst r; page_texts := snd r;
                          extracted_metadata := info |}).
    { unfold extract_text_from_pdf. rewrite Hopen. simpl. unfold info.
      rewrite Hpages, Hr. reflexivity. }
    destruct (chunk_text_chain h (fst r) (Some md) Hh) as (ws & _ & [fuel Hrun]).
    eexists. split.
    { exists fuel. unfold process_pdf_fuel. rewrite Hex. simpl. fold info md.
      rewrite Hrun. reflexivity. }
    intros i c. rewrite list_lookup_imap.
    destruct (ws !! i) as [w|] eqn:Hi; [|discriminate]. simpl. intros [= <-].
    assert (Hsource : md !! "source" = Some (VStr pdf_path)) by (unfold md, pdf_chunk_metadata; dict_lookup).
    assert (Hpagesn : md !! "num_pages" = Some (VInt (len texts))).
    { unfold md, pdf_chunk_metadata. rewrite lookup_insert_ne by done.
      rewrite lookup_insert_eq. simpl. unfold len. now rewrite Hpages, length_map. }
    assert (Htitle : md !! "title" = Some (info_field reader "/Title"))
      by (unfold md, pdf_chunk_metadata; apply lookup_insert_eq).
    assert (Hid : md !! "chunk_id" = None).
    { unfold md, pdf_chunk_metadata. rewrite !lookup_insert_ne by done.
      now apply lookup_singleton_ne. }
    assert (Hne : md <> ∅) by (intros Hempty; rewrite Hempty, lookup_empty in Hsource; discriminate).
    unfold span_chunk, chunk_data. destruct (decide (md = ∅)); [contradiction|].
    assert (Hcid : forall d : dict, d !! "chunk_id" = Some (VInt (Z.of_nat i)) ->
                     (md ∪ d) !! "chunk_id" = Some (VInt (Z.of_nat i)))
      by (intros d Hd; now rewrite lookup_union_r).
    split; [now apply lookup_union_Some_l|]. split; [now apply lookup_union_Some_l|].
    split; [now apply lookup_union_Some_l|].
    split; [apply Hcid, lookup_insert_eq|].
    unfold chunk_metadata.
    rewrite (lookup_union_Some_l _ _ _ _ Hsource), (lookup_union_Some_l _ _ _ _ Htitle).
    rewrite (Hcid _ (lookup_insert_eq _ _ _)). reflexivity.
  - intros e Hopen. exists O. unfold process_pdf_fuel, extract_text_from_pdf.
    now rewrite Hopen.
  - intros reader texts e rest Hopen Hpages. exists O.
    unfold process_pdf_fuel, extract_text_from_pdf. rewrite Hopen. simpl.
    now rewrite Hpages, extract_pages_raise.
Qed.

End PipelineFacts.

(** ** Embedding, storing and loading *)

Section VectorDbMore.

Context {FL : Floats}.

Lemma get_batch_embeddings_first_failure client (n : nat) texts (i : nat) text e :
  texts !! i = Some text ->
  get_embedding (client (n + i)%nat) text = Raise e ->
  (forall (j : nat) text', (j < i)%nat -> texts !! j = Some text' ->
     exists v, get_embedding (client (n + j)%nat) text' = Ok v) ->
  get_batch_embeddings client n texts = Raise e.
Proof.
  revert n i. induction texts as [|t texts IH]; intros n i Hi He Hbefore; [discriminate|].
  simpl. destruct i as [|i]; simpl in Hi.
  - injection Hi as ->. rewrite Nat.add_0_r in He. now rewrite He.
  - destruct (Hbefore O t) as [v Hv]; [lia | reflexivity|].
    rewrite Nat.add_0_r in Hv. rewrite Hv. simpl.
    rewrite (IH (S n) i); [reflexivity | exact Hi | |].
    + now replace (S n + i)%nat with (n + S i)%nat by lia.
    + intros j text' Hj Hl. replace (S n + j)%nat with (n + S j)%nat by lia.
      apply (Hbefore (S j) text'); [lia | exact Hl].
Qed.

Lemma get_batch_embeddings_total client (n : nat) texts (P : list F -> Prop) :
  (forall i text, exists v, get_embedding (client i) text = Ok v /\ P v) ->
  exists embeddings,
    get_batch_embeddings client n texts = Ok embeddings /\ Forall P embeddings.
Proof.
  intros Hc. revert n. induction texts as [|t texts IH]; intros n; simpl; [eauto|].
  destruct (Hc n t) as (v & -> & Hv). simpl.
  destruct (IH (S n)) as (es & -> & Hes). simpl. eauto.
Qed.

(** X8. [get_batch_embeddings] makes one call per text, in order: when
    it returns, there is one embedding per text and the i-th is what
    [get_embedding] gave for the i-th text; when the call for some text
    raises after all earlier calls succeeded, the batch raises that same
    exception and returns nothing. *)
Theorem batch_embeddings_in_order (client : nat -> value -> result extraction)
    (texts : list value) :
  (forall embeddings,
     get_batch_embeddings client O texts = Ok embeddings ->
     length embeddings = length texts
     /\ forall (i : nat) text, texts !! i = Some text ->
          exists v, embeddings !! i = Some v /\ get_embedding (client i) text = Ok v)
  /\ (forall (i : nat) text e,
        texts !! i = Some text ->
        get_embedding (client i) text = Raise e ->
        (forall (j : nat) text', (j < i)%nat -> texts !! j = Some text' ->
           exists v, get_embedding (client j) text' = Ok v) ->
        get_batch_embeddings client O texts = Raise e).
Proof.
  split.
  - intros es H. split; [now apply get_batch_embeddings_length in H|].
    intros i text Hi. apply (get_batch_embeddings_lookup _ _ _ _ H i text Hi).
  - intros i text e Hi He Hbefore.
    now apply (get_batch_embeddings_first_failure client O texts i text e).
Qed.

Lemma comprehension_raise {A B} (f : A -> result B) (l : list A) (e : exn) :
  (exists a, a ∈ l /\ f a = Raise e) ->
  (forall a e', f a = Raise e' -> e' = e) ->
  comprehension f l = Raise e.
Proof.
  intros (a & Ha & Hf) Hsame. induction l as [|x l IH]; [inversion Ha|].
  simpl. destruct (f x) as [b|e'] eqn:Hx; simpl.
  - apply elem_of_cons in Ha as [-> | Ha]; [congruence|]. now rewrite IH.
  - f_equal. now apply Hsame in Hx.
Qed.

(** X9. An [add_documents] that raises adds nothing: on a loaded
    collection the containers, the index and the disk are exactly as
    before the call. A chunk without the key text makes it raise
    KeyError 'text', whatever the embedding service would answer. *)
Theorem failed_add_changes_nothing (self : VectorDatabase) (disk : Disk)
    (chunks : list dict) (name : str) (client : nat -> value -> result extraction)
    (io : artifact -> write_outcome) (ix : IndexFlatL2) :
  index self = Some ix ->
  (forall e,
     snd (add_documents self disk chunks name client io) = Raise e ->
     fst (add_documents self disk chunks name client io) = (self, disk))
  /\ ((exists chunk, chunk ∈ chunks /\ chunk !! "text" = None) ->
      add_documents self disk chunks name client io
      = (self, disk, Raise (Exn "KeyError" (py "'text'")))).
Proof.
  intros Hix. split.
  - intros e He.
    destruct (add_documents self disk chunks name client io) as [[self' disk'] r] eqn:H.
    simpl in He. subst r. apply add_documents_raise in H as [-> ->]. now rewrite Hix.
  - intros (chunk & Hin & Hnone). unfold add_documents. rewrite Hix.
    rewrite (comprehension_raise chunk_text_of chunks (Exn "KeyError" (py "'text'")));
      [reflexivity | |].
    + exists chunk. split; [exact Hin|]. unfold chunk_text_of. now rewrite Hnone.
    + intros a e'. unfold chunk_text_of. destruct (a !! "text"); [discriminate|].
      now intros [= <-].
Qed.

Lemma tagged_vectors (chunks : list dict) (embeddings : list (list F)) (P : list F -> Prop) :
  Forall P embeddings -> Forall (fun r => P (vector r)) (zip_with tag chunks embeddings).
Proof.
  intros H. revert chunks. induction H as [|v vs Hv _ IH]; intros [|c chunks]; simpl;
    constructor; [exact Hv | apply IH].
Qed.

(** X10. On a loaded collection, for a non-empty batch of chunks that
    each have a text, and an embedding service that answers every call
    with a vector of the index dimension, [add_documents] succeeds: the
    count and the number of vectors both grow by the number of chunks,
    and the texts and the metadata records of the chunks are appended in
    the chunks' order. *)
Theorem add_documents_appends (self : VectorDatabase) (disk : Disk)
    (chunks : list dict) (name : str) (client : nat -> value -> result extraction)
    (io : artifact -> write_outcome) (ix : IndexFlatL2) :
  index self = Some ix ->
  chunks <> [] ->
  (forall chunk, chunk ∈ chunks -> is_Some (chunk !! "text")) ->
  (forall i text, exists v, get_embedding (client i) text = Ok v /\ length v = dim ix) ->
  exists self' disk',
    add_documents self disk chunks name client io = (self', disk', Ok tt)
    /\ get_collection_count self' = get_collection_count self + len chunks
    /\ option_map ntotal (index self') = Some (ntotal ix + len chunks)
    /\ documents self' = documents self ++ map (fun c => default VNone (c !! "text")) chunks
    /\ metadatas self' = metadatas self ++ map chunk_metadata chunks.
Proof.
  intros Hix _ Htext Hclient.
  destruct (comprehension_total chunk_text_of chunks) as [texts Ht].
  { intros c Hc. destruct (Htext c Hc) as [v Hv]. exists v. unfold chunk_text_of. now rewrite Hv. }
  destruct (get_batch_embeddings_total client O texts _ Hclient) as (es & Hes & Hdim).
  assert (Hall : forallb (fun r => Nat.eqb (length (vector r)) (dim ix))
                   (zip_with tag chunks es) = true).
  { apply forallb_forall. intros r Hr. apply Nat.eqb_eq.
    pose proof (tagged_vectors chunks es _ Hdim) as Hf. rewrite Forall_forall in Hf.
    apply Hf. now apply list_elem_of_In. }
  destruct (add_documents self disk chunks name client io) as [[self' disk'] r] eqn:H.
  assert (Hr : r = Ok tt).
  { revert H. unfold add_documents. rewrite Hix, Ht. cbn [bind]. rewrite Hes. cbn [bind].
    rewrite Hix. unfold index_add. rewrite Hall. cbn [bind]. now intros [= _ _ <-]. }
  subst r. exists self', disk'. split; [reflexivity|].
  apply add_documents_ok in H. cbv zeta in H. rewrite Hix in H.
  cbn beta iota in H.
  destruct H as (ix' & rows & Hix' & Ho & Hi & Hd & Hm & _).
  rewrite Hix in Hix'. injection Hix' as <-.
  assert (Hrows : length rows = length chunks) by (rewrite <- Ho; now rewrite length_map).
  assert (Htexts : map row_text rows = map (fun c => default VNone (c !! "text")) chunks).
  { rewrite <- Ho, map_map. reflexivity. }
  unfold get_collection_count, ntotal, len. rewrite Hi, Hd, Hm, Htexts. simpl.
  rewrite !length_app, length_map, Hrows. repeat split; try lia.
  f_equal. lia.
Qed.

(** X11. What [add_documents] saved is what [create_collection] loads:
    after a successful call whose three writes completed, loading the
    collection from the disk, from any in-memory state, gives the
    same index, documents and metadata that the call left in memory. *)
Theorem saved_collection_loads_back (self : VectorDatabase) (disk : Disk)
    (chunks : list dict) (name : str) (client : nat -> value -> result extraction)
    (io : artifact -> write_outcome) (self' : VectorDatabase) (disk' : Disk) :
  add_documents self disk chunks name client io = (self', disk', Ok tt) ->
  (forall a, io a = Written) ->
  forall (other : VectorDatabase) (name' : str),
    create_collection other disk' name'
    = {| index := index self'; documents := documents self';
         metadatas := metadatas self'; collection_name := Some name' |}.
Proof.
  intros H Hio other name'. apply add_documents_ok in H. cbv zeta in H.
  destruct H as (ix & rows & _ & _ & Hi & _ & _ & ->).
  unfold _save. rewrite Hi, !Hio. simpl. unfold create_collection. simpl.
  reflexivity.
Qed.

(** X12. A reset does not leave anything to resurrect: after a
    [reset_database] whose removals succeed, [create_collection], from
    the reset state or from any other in-memory state, gives an empty
    collection with a new index of dimension 384 and count 0. *)
Theorem reset_then_create_is_empty (self : VectorDatabase) (disk : Disk) :
  let once := reset_database self disk no_remove_fault in
  forall (other : VectorDatabase) (name : str),
    create_collection other (snd once) name
    = {| index := Some {| dim := embedding_dim; xb := [] |};
         documents := []; metadatas := []; collection_name := Some name |}
    /\ get_collection_count (create_collection other (snd once) name) = 0.
Proof.
  intros once other name. unfold once, reset_database, delete_collection, remove,
    no_remove_fault.
  destruct (index_file disk), (docs_file disk), (meta_file disk); simpl; now split.
Qed.

Lemma index_search_lengths (ix : IndexFlatL2) (q : list F) (k : Z) distances indices :
  index_search ix q k = Ok (distances, indices) ->
  length distances = length indices /\ (length indices <= Z.to_nat k)%nat.
Proof.
  unfold index_search. destruct (Nat.eqb (length q) (dim ix)); [|discriminate].
  intros [= <- <-]. rewrite !length_map, length_take. lia.
Qed.

(** The three lists of a query result go together. *)
Lemma query_lengths self feature_extraction query_text n_results res :
  query self feature_extraction query_text n_results = Ok res ->
  length (results_docs res) = length (results_dist res)
  /\ length (results_meta res) = length (results_dist res)
  /\ len (results_docs res) <= len (documents self)
  /\ (0 <= n_results -> len (results_docs res) <= n_results).
Proof.
  unfold query, len.
  destruct (index self) as [ix|]; [|intros [= <-]; simpl; lia].
  destruct (Z.of_nat (length (documents self)) =? 0); [intros [= <-]; simpl; lia|].
  destruct (get_embedding feature_extraction (VStr query_text)) as [q|e]; simpl;
    [|discriminate].
  destruct (index_search ix q _) as [[distances indices]|e] eqn:Hs; simpl; [|discriminate].
  destruct (comprehension (py_index (documents self)) indices) as [docs|e] eqn:Hd; simpl;
    [|discriminate].
  destruct (comprehension (py_index (metadatas self)) indices) as [metas|e] eqn:Hm;
    simpl; [|discriminate].
  intros [= <-]. simpl.
  apply index_search_lengths in Hs as [Hl Hk].
  apply comprehension_length in Hd, Hm. lia.
Qed.

(** X13. Whenever [query] returns, its documents, metadatas and
    distances have the same length, which is at most the number of stored
    documents and at most a requested count n_results >= 0; and every
    document returned is one of the stored documents. *)
Theorem query_result_is_consistent (self : VectorDatabase)
    (feature_extraction : value -> result extraction) (query_text : str)
    (n_results : Z) (res : QueryResult) :
  query self feature_extraction query_text n_results = Ok res ->
  length (results_docs res) = length (results_dist res)
  /\ length (results_meta res) = length (results_dist res)
  /\ len (results_docs res) <= len (documents self)
  /\ (0 <= n_results -> len (results_docs res) <= n_results)
  /\ (forall doc, doc ∈ results_docs res -> doc ∈ documents self).
Proof.
  intros H. destruct (query_lengths _ _ _ _ _ H) as (H1 & H2 & H3 & H4).
  repeat split; auto. revert H. unfold query.
  destruct (index self) as [ix|]; [|intros [= <-] d Hd; inversion Hd].
  destruct (len (documents self) =? 0); [intros [= <-] d Hd; inversion Hd|].
  destruct (get_embedding feature_extraction (VStr query_text)) as [q|e]; simpl;
    [|discriminate].
  destruct (index_search ix q _) as [[distances indices]|e]; simpl; [|discriminate].
  destruct (comprehension (py_index (documents self)) indices) as [docs|e] eqn:Hc; simpl;
    [|discriminate].
  destruct (comprehension (py_index (metadatas self)) indices) as [metas|e]; simpl;
    [|discriminate].
  intros [= <-] d Hd. simpl in Hd.
  apply list_elem_of_lookup in Hd as [i Hi].
  destruct (indices !! i) as [j|] eqn:Hj.
  - destruct (comprehension_lookup _ _ _ Hc i j Hj) as (d' & Hd' & Hidx).
    rewrite Hi in Hd'. injection Hd' as <-. now apply py_index_elem in Hidx.
  - apply lookup_ge_None in Hj. apply comprehension_length in Hc.
    apply lookup_lt_Some in Hi. lia.
Qed.

End VectorDbMore.

(** ** Generation and the assembled answer *)

Section ChatBotMore.

Context {U : Unicode} {FL : Floats}.

(** X14. Whatever the chat endpoint answers, a text that
    [generate_response] returns has no whitespace at either end, and an
    exception it raises is an Exception whose message starts with
    Error generating response. A dictionary without choices gives the
    empty text; a dictionary with an empty choices list, and an object
    whose first content is None, make it raise. *)
Theorem generate_response_outcomes (chat_completion : str -> Z -> result completion)
    (prompt : str) (max_length : Z) :
  (forall text,
     generate_response chat_completion prompt max_length = Ok text ->
     strip text = text
     /\ (forall c, head text = Some c -> isspace c = false)
     /\ (forall c, last text = Some c -> isspace c = false))
  /\ (forall e,
        generate_response chat_completion prompt max_length = Raise e ->
        exists cause, e = Exn "Exception" (py "Error generating response: " ++ cause))
  /\ (chat_completion prompt max_length = Ok (ChoicesDict None) ->
      generate_response chat_completion prompt max_length = Ok [])
  /\ (chat_completion prompt max_length = Ok (ChoicesDict (Some [])) ->
      generate_response chat_completion prompt max_length
      = Raise (Exn "Exception"
                 (py "Error generating response: " ++ py "list index out of range")))
  /\ (forall rest repr,
        chat_completion prompt max_length = Ok (ChoicesObject (None :: rest) repr) ->
        generate_response chat_completion prompt max_length
        = Raise (Exn "Exception"
                   (py "Error generating response: "
                    ++ py "'NoneType' object has no attribute 'strip'"))).
Proof.
  assert (Hstripped : forall text,
            generate_response chat_completion prompt max_length = Ok text ->
            exists raw, text = strip raw).
  { intros text. unfold generate_response.
    destruct (chat_completion prompt max_length) as [[contents repr|choices|repr]|e];
      cbn [bind]; [| | |discriminate].
    - destruct contents as [|[content|] rest]; [| |discriminate]; intros [= <-]; eauto.
    - destruct choices as [[|[[content|]|] rest]|]; try discriminate; intros [= <-]; eauto.
    - intros [= <-]; eauto. }
  split; [|split; [|split; [|split]]].
  - intros text Ht. destruct (Hstripped text Ht) as [raw ->].
    split; [apply strip_idem|]. split; intros c; [apply strip_head | apply strip_last].
  - intros e. unfold generate_response.
    destruct (chat_completion prompt max_length) as [[contents repr|choices|repr]|e0];
      cbn [bind].
    + destruct contents as [|[content|] rest]; try discriminate. intros [= <-]. eauto.
    + destruct choices as [[|[[content|]|] rest]|]; try discriminate. intros [= <-]. eauto.
    + discriminate.
    + intros [= <-]. eauto.
  - intros H. unfold generate_response. now rewrite H.
  - intros H. unfold generate_response. now rewrite H.
  - intros rest repr H. unfold generate_response. now rewrite H.
Qed.

(** X15. On a collection that is unloaded or holds no document,
    [answer_question] returns the fixed no-documents record, whatever the
    question, the number of context documents asked for and the behaviour
    of the two remote services. *)
Theorem answer_on_empty_collection (vector_db : VectorDatabase)
    (feature_extraction : value -> result extraction)
    (chat_completion : str -> Z -> result completion)
    (question : str) (n_context_docs : Z) :
  index vector_db = None \/ documents vector_db = [] ->
  answer_question vector_db feature_extraction chat_completion question n_context_docs
  = no_documents_answer.
Proof.
  intros H. unfold answer_question, answer_question_try, query.
  destruct H as [-> | Hd]; [reflexivity|].
  rewrite Hd. now destruct (index vector_db).
Qed.

Lemma source_of_inv distances (i : nat) doc metadata s :
  source_of distances i doc metadata = Ok s ->
  exists text d,
    doc = VStr text
    /\ py_index distances (Z.of_nat i) = Ok d
    /\ s = <["relevance_score" := SNum (fsub fone d)]>
             (<["text_preview" :=
                  SVal (VStr (if 200 <? len text then slice text 0 200 ++ py "..." else text))]>
               (<["title" := SVal (default (VStr (py "Unknown")) (metadata !! "title"))]>
                 (<["source" := SVal (default (VStr (py "Unknown")) (metadata !! "source"))]>
                   {["chunk_id" :=
                       SVal (default (VInt (Z.of_nat i)) (metadata !! "chunk_id"))]}))).
Proof.
  unfold source_of. destruct doc as [|z|text]; cbn [bind]; try discriminate.
  destruct (py_index distances (Z.of_nat i)) as [d|e]; cbn [bind]; [|discriminate].
  intros [= <-]. eauto.
Qed.

Lemma prepare_sources_lookup distances (i : nat) docs metas sources :
  prepare_sources distances i docs metas = Ok sources ->
  length sources = Nat.min (length docs) (length metas)
  /\ forall (j : nat) s, sources !! j = Some s ->
       exists doc metadata,
         docs !! j = Some doc /\ metas !! j = Some metadata
         /\ source_of distances (i + j) doc metadata = Ok s.
Proof.
  revert i metas sources. induction docs as [|doc docs IH]; intros i metas sources; simpl.
  - intros [= <-]. split; [reflexivity | intros j s Hj; discriminate].
  - destruct metas as [|metadata metas]; [intros [= <-]; split; [reflexivity | intros j s Hj; discriminate]|].
    destruct (source_of distances i doc metadata) as [s0|e] eqn:Hs; cbn [bind]; [|discriminate].
    destruct (prepare_sources distances (S i) docs metas) as [ss|e] eqn:Hss; cbn [bind];
      [|discriminate].
    intros [= <-]. destruct (IH _ _ _ Hss) as [Hlen Hlook]. split; [simpl; lia|].
    intros [|j] s Hj; simpl in *.
    + injection Hj as <-. exists doc, metadata. now rewrite Nat.add_0_r.
    + destruct (Hlook j s Hj) as (doc' & meta' & H1 & H2 & H3).
      exists doc', meta'. now replace (i + S j)%nat with (S i + j)%nat by lia.
Qed.

Lemma py_index_lookup {A} (l : list A) (i : nat) (a : A) :
  py_index l (Z.of_nat i) = Ok a -> l !! i = Some a.
Proof.
  unfold py_index. destruct (Z.of_nat i <? 0) eqn:H0; [apply Z.ltb_lt in H0; lia|].
  rewrite H0, Nat2Z.id. destruct (l !! i); [now intros [= <-] | discriminate].
Qed.

(** X16. When documents were retrieved and nothing raised, the answer
    holds one source per retrieved document, in the order of the search
    results, and context_used is their number. The i-th source has
    relevance_score = 1 - the i-th distance, the chunk_id, source and
    title of the i-th metadata record (i, Unknown and Unknown where the
    record lacks them), and as text_preview the document itself when it
    has at most 200 characters, otherwise its first 200 characters
    followed by three dots, so never more than 203 characters. *)
Theorem sources_follow_results (vector_db : VectorDatabase)
    (feature_extraction : value -> result extraction)
    (chat_completion : str -> Z -> result completion)
    (question : str) (n_context_docs : Z) (res : QueryResult)
    (built : gmap string rvalue) :
  query vector_db feature_extraction question n_context_docs = Ok res ->
  results_docs res <> [] ->
  answer_question_try vector_db feature_extraction chat_completion question
    n_context_docs = Ok built ->
  exists sources,
    built !! "sources" = Some (RSources sources)
    /\ built !! "context_used" = Some (RInt (len sources))
    /\ length sources = length (results_docs res)
    /\ forall (i : nat) s, sources !! i = Some s ->
         exists doc metadata d preview,
           results_docs res !! i = Some (VStr doc)
           /\ results_meta res !! i = Some metadata
           /\ results_dist res !! i = Some d
           /\ s !! "relevance_score" = Some (SNum (fsub fone d))
           /\ s !! "chunk_id"
              = Some (SVal (default (VInt (Z.of_nat i)) (metadata !! "chunk_id")))
           /\ s !! "source"
              = Some (SVal (default (VStr (py "Unknown")) (metadata !! "source")))
           /\ s !! "title"
              = Some (SVal (default (VStr (py "Unknown")) (metadata !! "title")))
           /\ s !! "text_preview" = Some (SVal (VStr preview))
           /\ len preview <= 203
           /\ (len doc <= 200 -> preview = doc)
           /\ (200 < len doc -> preview = take 200 doc ++ py "...").
Proof.
  intros Hq Hne Hb. destruct (query_lengths _ _ _ _ _ Hq) as (Hl1 & Hl2 & _ & _).
  revert Hb. unfold answer_question_try. rewrite Hq. cbn [bind].
  destruct (results_docs res) as [|doc0 docs0] eqn:Hd; [congruence|].
  destruct (generate_response chat_completion _ 500) as [text|e]; cbn [bind]; [|discriminate].
  destruct (prepare_sources (results_dist res) 0 (doc0 :: docs0) (results_meta res))
    as [sources|e] eqn:Hs; cbn [bind]; [|discriminate].
  intros [= <-]. apply prepare_sources_lookup in Hs as [Hlen Hlook].
  assert (Hsame : length sources = length (doc0 :: docs0)) by lia.
  exists sources. split; [dict_lookup|]. split.
  { rewrite lookup_insert_eq. unfold len. now rewrite Hsame. }
  split; [exact Hsame|]. intros i s Hi.
  destruct (Hlook i s Hi) as (doc & metadata & Hdoc & Hmeta & Hsrc).
  apply source_of_inv in Hsrc as (text' & d & -> & Hdist & ->).
  apply py_index_lookup in Hdist.
  exists text', metadata, d,
    (if 200 <? len text' then slice text' 0 200 ++ py "..." else text').
  split; [exact Hdoc|]. split; [exact Hmeta|]. split; [exact Hdist|].
  split; [apply lookup_insert_eq|]. split; [dict_lookup|]. split; [dict_lookup|].
  split; [dict_lookup|]. split; [dict_lookup|].
  destruct (200 <? len text') eqn:Hlong.
  - apply Z.ltb_lt in Hlong.
    assert (Hslice : slice text' 0 200 = take 200 text').
    { unfold slice, clamp_index.
      replace (0 <? 0) with false by reflexivity.
      replace (200 <? 0) with false by reflexivity.
      rewrite (Z.min_l 200), (Z.min_l 0) by lia. reflexivity. }
    rewrite Hslice. split; [|split; [lia|reflexivity]].
    unfold len in *. rewrite length_app, length_take.
    change (length (py "...")) with 3%nat. lia.
  - apply Z.ltb_ge in Hlong. split; [lia|]. split; [reflexivity|lia].
Qed.

End ChatBotMore.

(** ** The endpoints *)

Section MainFacts.

Context {U : Unicode} {FL : Floats}.

Variable http_exception_str : Z -> str -> str.
Variable os_path_join : str -> str -> str.
Variable SESSION_ID : str.

(** X17. Every error answer of [upload_pdf] has status 500 and a detail
    that starts with Error processing PDF. In particular a file whose
    name does not end in .pdf is answered with 500, not 400: the
    HTTPException raised for it is caught by the endpoint's own except
    clause; the vector database is then left untouched. *)
Theorem upload_errors_are_500 (fuel : nat) (s : VectorDatabase * Disk) (filename : str)
    (save_upload : str -> result unit) (open_pdf : str -> result PdfReader)
    (client : nat -> value -> result extraction) (io : artifact -> write_outcome)
    (recorded : result unit) :
  (forall s' status_code detail,
     upload_pdf_fuel http_exception_str os_path_join fuel s filename save_upload open_pdf
       client io recorded = Some (s', HTTPException status_code detail) ->
     status_code = 500 /\ exists cause, detail = py "Error processing PDF: " ++ cause)
  /\ (endswith filename (py ".pdf") = false ->
      upload_pdf_fuel http_exception_str os_path_join fuel s filename save_upload open_pdf
        client io recorded
      = Some (s, HTTPException 500
                   (py "Error processing PDF: "
                    ++ http_exception_str 400 (py "Only PDF files are allowed")))).
Proof.
  split.
  - intros s' code detail. unfold upload_pdf_fuel.
    destruct (upload_pdf_try _ _ _ _ _ _ _ _ _ _) as [[s0 [content|e]]|];
      [discriminate| |discriminate].
    intros [= _ <- <-]. eauto.
  - intros Hname. unfold upload_pdf_fuel, upload_pdf_try. now rewrite Hname.
Qed.

(** X18. [upload_pdf] records the document only after the chunks are in
    the vector database: for a .pdf file that is saved, chunked and
    added, the chunks stay stored, behind the collection just reloaded
    from disk, whether the insert of the document row succeeds (the
    answer then reports num_chunks) or raises (the answer is then a 500
    naming Error adding document). *)
Theorem upload_stores_before_recording (fuel : nat) (s : VectorDatabase * Disk)
    (filename : str) (save_upload : str -> result unit)
    (open_pdf : str -> result PdfReader)
    (client : nat -> value -> result extraction) (io : artifact -> write_outcome)
    (recorded : result unit) (chunks : list dict)
    (self' : VectorDatabase) (disk' : Disk) :
  endswith filename (py ".pdf") = true ->
  save_upload (os_path_join (py "uploads") filename) = Ok tt ->
  process_pdf_fuel fuel default_handler open_pdf (os_path_join (py "uploads") filename)
  = Some (Ok chunks) ->
  add_documents (create_collection (fst s) (snd s) (py "documents")) (snd s) chunks
    (py "documents") client io = (self', disk', Ok tt) ->
  (exists response,
     upload_pdf_fuel http_exception_str os_path_join fuel s filename save_upload open_pdf
       client io recorded = Some (self', disk', response)
     /\ match recorded with
        | Ok _ =>
            exists content,
              response = Respond content
              /\ content !! "num_chunks" = Some (VInt (len chunks))
              /\ content !! "filename" = Some (VStr filename)
              /\ content !! "status" = Some (VStr (py "success"))
        | Raise e =>
            response
            = HTTPException 500
                (py "Error processing PDF: " ++ (py "Error adding document: " ++ exn_str e))
        end)
  /\ get_collection_count self'
     = get_collection_count (create_collection (fst s) (snd s) (py "documents"))
       + len chunks.
Proof.
  intros Hname Hsave Hchunks Hadd. split.
  - unfold upload_pdf_fuel, upload_pdf_try. rewrite Hname, Hsave, Hchunks. simpl negb.
    cbv iota. cbv zeta. rewrite Hadd.
    destruct recorded as [[]|e]; simpl.
    + eexists. split; [reflexivity|]. eexists. split; [reflexivity|].
      split; [dict_lookup|]. split; [dict_lookup|apply lookup_insert_eq].
    + eexists. split; reflexivity.
  - apply add_documents_ok in Hadd. cbv zeta in Hadd.
    destruct Hadd as (ix & rows & _ & Ho & _ & Hd & _ & _).
    assert (Hix : exists ix0, index (create_collection (fst s) (snd s) (py "documents"))
                              = Some ix0).
    { unfold create_collection. destruct (exists_ (index_file (snd s))); [|simpl; eauto].
      destruct (load (index_file (snd s))); simpl; [|eauto].
      destruct (load (docs_file (snd s))); simpl; [|eauto].
      destruct (load (meta_file (snd s))); simpl; eauto. }
    destruct Hix as [ix0 Hix0]. rewrite Hix0 in Hd.
    unfold get_collection_count, len. rewrite Hd, length_app, length_map.
    rewrite <- Ho, length_map. lia.
Qed.

Lemma answer_question_text (vector_db : VectorDatabase)
    (feature_extraction : value -> result extraction)
    (chat_completion : str -> Z -> result completion)
    (question : str) (n_context_docs : Z) :
  exists text sources,
    answer_question vector_db feature_extraction chat_completion question n_context_docs
      !! "answer" = Some (RStr text)
    /\ answer_question vector_db feature_extraction chat_completion question
         n_context_docs !! "sources" = Some (RSources sources).
Proof.
  unfold answer_question.
  destruct (answer_question_try _ _ _ _ _) as [built|e] eqn:Hb.
  - revert Hb. unfold answer_question_try.
    destruct (query _ _ _ _) as [res|e]; cbn [bind]; [|discriminate].
    destruct (results_docs res) as [|doc docs].
    + intros [= <-]. eexists _, _. unfold no_documents_answer. split; dict_lookup.
    + destruct (generate_response _ _ _) as [text|e]; cbn [bind]; [|discriminate].
      destruct (prepare_sources _ _ _ _) as [sources|e]; cbn [bind]; [|discriminate].
      intros [= <-]. eexists _, _. split; dict_lookup.
  - eexists _, _. unfold error_answer. split; dict_lookup.
Qed.

(** X19. [ask_question] answers with the chat bot's record whenever the
    chat message can be stored: the answer text and the sources are those
    of [answer_question] for 3 context documents, also when that text
    reports a failed retrieval or generation, and the session id is the
    request's, or the server's own when the request has none or an empty
    one. The only error answer is a 500 for a failed insert of the chat
    message. *)
Theorem ask_question_responses (vector_db : VectorDatabase)
    (feature_extraction : value -> result extraction)
    (chat_completion : str -> Z -> result completion)
    (question : str) (session_id : option str) (recorded : result unit) :
  (recorded = Ok tt ->
   exists text sources,
     answer_question vector_db feature_extraction chat_completion question 3
       !! "answer" = Some (RStr text)
     /\ answer_question vector_db feature_extraction chat_completion question 3
          !! "sources" = Some (RSources sources)
     /\ ask_question SESSION_ID vector_db feature_extraction chat_completion question
          session_id recorded
        = Respond {| response_answer := text; response_sources := sources;
                     response_session_id :=
                       match session_id with
                       | Some (c :: id) => c :: id
                       | _ => SESSION_ID
                       end |})
  /\ (forall e, recorded = Raise e ->
        ask_question SESSION_ID vector_db feature_extraction chat_completion question
          session_id recorded
        = HTTPException 500
            (py "Error answering question: "
             ++ (py "Error adding chat message: " ++ exn_str e))).
Proof.
  destruct (answer_question_text vector_db feature_extraction chat_completion question 3)
    as (text & sources & Ha & Hs).
  split.
  - intros ->. exists text, sources. split; [exact Ha|]. split; [exact Hs|].
    unfold ask_question. cbv zeta. rewrite Ha, Hs. reflexivity.
  - intros e ->. unfold ask_question. cbv zeta. rewrite Ha. reflexivity.
Qed.

(** X20. After [clear_database], when no file removal fails, the health
    endpoint reports a vector_db_count of 0, whether the clearing of the
    chat history succeeded or made the endpoint answer 500. *)
Theorem clear_then_health_reports_zero (s : VectorDatabase * Disk) (cleared : result unit) :
  health_check (fst (clear_database s no_remove_fault cleared)) !! "vector_db_count"
  = Some (VInt 0)
  /\ (cleared = Ok tt ->
      exists content, snd (clear_database s no_remove_fault cleared) = Respond content
                      /\ content !! "status" = Some (VStr (py "success")))
  /\ (forall e, cleared = Raise e ->
        snd (clear_database s no_remove_fault cleared)
        = HTTPException 500
            (py "Error clearing database: " ++ (py "Error clearing history: " ++ exn_str e))).
Proof.
  split; [|split].
  - unfold health_check. rewrite lookup_insert_eq. do 2 f_equal.
    unfold clear_database. destruct (clear_history cleared); simpl;
      unfold reset_database, delete_collection, remove, no_remove_fault;
      destruct s as [self disk]; simpl;
      destruct (index_file disk), (docs_file disk), (meta_file disk); reflexivity.
  - intros ->. simpl. eexists. split; [reflexivity|]. apply lookup_insert_eq.
  - intros e ->. reflexivity.
Qed.

End MainFacts.

(** ** The further properties on concrete inputs *)

(** The window is cut after the full stop at position 600; the second
    window runs past the end of the text. *)
Example sentence_cut_example :
  option_map (map span_of)
    (chunk_text_fuel (U := ascii_unicode) 5 default_handler text_with_sentence None)
  = Some [Some (0, 601); Some (401, 1401)].
Proof. vm_compute. reflexivity. Qed.

Example demo_chunks_example :
  map (fun c : dict => (c !! "text", c !! "source", c !! "num_pages", c !! "title")) demo_chunks
  = [ (Some (VStr (py "--- Page 1 --- Hello world. --- Page 2 --- Second page.")),
       Some (VStr (py "uploads/a.pdf")), Some (VInt 2), Some (VStr (py "Greetings"))) ].
Proof. vm_compute. reflexivity. Qed.

Lemma whitespace_only_text_yields_no_chunk_witness :
  clean_text (U := ascii_unicode) (py "   ") = []
  /\ forall h metadata chunks,
       chunk_text (U := ascii_unicode) h (py "   ") metadata chunks <-> chunks = [].
Proof.
  apply (whitespace_only_text_yields_no_chunk (U := ascii_unicode) (py "   ")).
  - reflexivity.
  - repeat constructor.
Defined.

Lemma chunk_fields_witness :
  exists chunks,
    chunk_text (U := ascii_unicode) default_handler text_with_sentence None chunks
    /\ forall (i : nat) c, chunks !! i = Some c ->
         c !! "chunk_id" = Some (VInt (Z.of_nat i))
         /\ exists s e,
              span_of c = Some (s, e)
              /\ 0 <= s < len (clean_text (U := ascii_unicode) text_with_sentence) /\ s < e
              /\ c !! "text"
                 = Some (VStr (strip (U := ascii_unicode)
                                 (slice (clean_text (U := ascii_unicode) text_with_sentence)
                                    s e))).
Proof.
  apply (chunk_fields (U := ascii_unicode) default_handler text_with_sentence None);
    first [exact I | repeat split; by vm_compute].
Defined.

Lemma chunk_size_bound_witness :
  exists chunks,
    chunk_text (U := ascii_unicode) default_handler text900 None chunks
    /\ Forall (fun c : dict =>
                 exists t s e,
                   c !! "text" = Some (VStr t) /\ span_of c = Some (s, e)
                   /\ len t <= chunk_size default_handler
                   /\ e - s <= chunk_size default_handler) chunks.
Proof.
  apply (chunk_size_bound (U := ascii_unicode) default_handler text900 None);
    first [exact I | repeat split; by vm_compute].
Defined.

Lemma chunk_ends_at_window_or_sentence_witness :
  exists chunks,
    chunk_text (U := ascii_unicode) default_handler text_with_sentence None chunks
    /\ Forall (fun c : dict =>
                 exists s e,
                   span_of c = Some (s, e)
                   /\ (e = s + chunk_size default_handler
                       \/ (chunk_size default_handler / 2 + 1 < e - s
                           /\ e < len (clean_text (U := ascii_unicode) text_with_sentence)
                           /\ exists t,
                                clean_text (U := ascii_unicode) text_with_sentence
                                  !! Z.to_nat (e - 1) = Some t
                                /\ t ∈ [ch "."; ch "?"; ch "!"]))) chunks.
Proof.
  apply (chunk_ends_at_window_or_sentence (U := ascii_unicode) default_handler
           text_with_sentence None);
    first [exact I | repeat split; by vm_compute].
Defined.

Lemma metadata_is_merged_witness :
  exists chunks,
    chunk_text (U := ascii_unicode) default_handler text900
      (Some {["source" := VStr (py "a.pdf")]}) chunks
    /\ Forall (fun c : dict =>
                 (forall key v,
                    ({["source" := VStr (py "a.pdf")]} : dict) !! key = Some v ->
                    c !! key = Some v)
                 /\ dom c = dom ({["source" := VStr (py "a.pdf")]} : dict)
                            ∪ ({["text"; "start_pos"; "end_pos"; "chunk_id"]}
                                : gset string)) chunks.
Proof.
  destruct (metadata_is_merged (U := ascii_unicode) default_handler text900
              {["source" := VStr (py "a.pdf")]}) as [Hall Hreturns].
  destruct Hreturns as [chunks Hrun]; [repeat split; by vm_compute|].
  exists chunks. split; [exact Hrun | exact (Hall chunks Hrun)].
Defined.

Lemma process_pdf_chunks_witness :
  (forall reader texts,
     (fun _ : str => Ok two_page_reader) (py "a.pdf") = Ok reader ->
     pages reader = map Ok texts ->
     exists chunks,
       process_pdf (U := ascii_unicode) default_handler (fun _ => Ok two_page_reader)
         (py "a.pdf") (Ok chunks)
       /\ forall (i : nat) c, chunks !! i = Some c ->
            c !! "source" = Some (VStr (py "a.pdf"))
            /\ c !! "num_pages" = Some (VInt (len texts))
            /\ c !! "title" = Some (info_field reader "/Title")
            /\ c !! "chunk_id" = Some (VInt (Z.of_nat i))
            /\ chunk_metadata c
               = <["title" := info_field reader "/Title"]>
                   (<["chunk_id" := VStr (py_str (VInt (Z.of_nat i)))]>
                     {["source" := VStr (py "a.pdf")]}))
  /\ (forall e, (fun _ : str => Ok two_page_reader) (py "a.pdf") = Raise e ->
        process_pdf (U := ascii_unicode) default_handler (fun _ => Ok two_page_reader)
          (py "a.pdf")
          (Raise (Exn "Exception" (py "Error extracting text from PDF: " ++ exn_str e))))
  /\ (forall reader texts e rest,
        (fun _ : str => Ok two_page_reader) (py "a.pdf") = Ok reader ->
        pages reader = map Ok texts ++ Raise e :: rest ->
        process_pdf (U := ascii_unicode) default_handler (fun _ => Ok two_page_reader)
          (py "a.pdf")
          (Raise (Exn "Exception" (py "Error extracting text from PDF: " ++ exn_str e)))).
Proof.
  destruct (process_pdf_chunks (U := ascii_unicode) default_handler
              (fun _ => Ok two_page_reader) (py "a.pdf")) as (Hchunks & Hopen & Hpage).
  split; [apply Hchunks; repeat split; by vm_compute | split; assumption].
Defined.

Lemma failed_add_changes_nothing_witness :
  (forall e,
     snd (add_documents (FL := Z_floats) tiny_db empty_disk [∅] (py "documents")
            (fun _ => origin_client) no_write_fault) = Raise e ->
     fst (add_documents (FL := Z_floats) tiny_db empty_disk [∅] (py "documents")
            (fun _ => origin_client) no_write_fault) = (tiny_db, empty_disk))
  /\ ((exists chunk : dict, chunk ∈ [∅ : dict] /\ chunk !! "text" = None) ->
      add_documents (FL := Z_floats) tiny_db empty_disk [∅] (py "documents")
        (fun _ => origin_client) no_write_fault
      = (tiny_db, empty_disk, Raise (Exn "KeyError" (py "'text'")))).
Proof.
  apply (failed_add_changes_nothing (FL := Z_floats) tiny_db empty_disk [∅]
           (py "documents") (fun _ => origin_client) no_write_fault tiny_index).
  reflexivity.
Defined.

Lemma add_documents_appends_witness :
  exists self' disk',
    add_documents (FL := Z_floats) tiny_db empty_disk [chunk_a; chunk_b] (py "documents")
      (fun _ => origin_client) no_write_fault = (self', disk', Ok tt)
    /\ get_collection_count self' = get_collection_count tiny_db + len [chunk_a; chunk_b]
    /\ option_map ntotal (index self') = Some (ntotal tiny_index + len [chunk_a; chunk_b])
    /\ documents self'
       = documents tiny_db ++ map (fun c : dict => default VNone (c !! "text")) [chunk_a; chunk_b]
    /\ metadatas self' = metadatas tiny_db ++ map chunk_metadata [chunk_a; chunk_b].
Proof.
  apply (add_documents_appends (FL := Z_floats) tiny_db empty_disk [chunk_a; chunk_b]
           (py "documents") (fun _ => origin_client) no_write_fault tiny_index).
  - reflexivity.
  - discriminate.
  - intros chunk Hc. apply elem_of_cons in Hc as [-> | Hc]; [eexists; reflexivity|].
    apply elem_of_cons in Hc as [-> | Hc]; [eexists; reflexivity | inversion Hc].
  - intros i text. exists [0]. split; reflexivity.
Defined.

Lemma saved_collection_loads_back_witness :
  create_collection (FL := Z_floats) init (snd demo_added) (py "documents")
  = {| index := index (fst demo_added); documents := documents (fst demo_added);
       metadatas := metadatas (fst demo_added);
       collection_name := Some (py "documents") |}.
Proof.
  apply (saved_collection_loads_back (FL := Z_floats)
           (create_collection init empty_disk (py "documents")) empty_disk demo_chunks
           (py "documents") (fun _ => steady_client) no_write_fault
           (fst demo_added) (snd demo_added)).
  - vm_compute. reflexivity.
  - reflexivity.
Defined.

Lemma query_result_is_consistent_witness :
  let res := @Build_QueryResult Z_floats
               [VStr (py "beta"); VStr (py "alpha")]
               [chunk_metadata chunk_b; chunk_metadata chunk_a] [1; 1] in
  length (results_docs res) = length (results_dist res)
  /\ length (results_meta res) = length (results_dist res)
  /\ len (results_docs res) <= len (documents tiny_db)
  /\ (0 <= 2 -> len (results_docs res) <= 2)
  /\ (forall doc, doc ∈ results_docs res -> doc ∈ documents tiny_db).
Proof.
  apply (query_result_is_consistent (FL := Z_floats) tiny_db origin_client (py "anything") 2).
  vm_compute. reflexivity.
Defined.

Lemma answer_on_empty_collection_witness :
  answer_question (U := ascii_unicode) (FL := Z_floats) init failing_client steady_chat
    (py "What?") 3 = no_documents_answer.
Proof.
  apply (answer_on_empty_collection (U := ascii_unicode) (FL := Z_floats) init
           failing_client steady_chat (py "What?") 3).
  left. reflexivity.
Defined.

Lemma sources_follow_results_witness :
  let res := @Build_QueryResult Z_floats
               [VStr (py "beta"); VStr (py "alpha"); VStr (py "beta")]
               [chunk_metadata chunk_b; chunk_metadata chunk_a; chunk_metadata chunk_b]
               [1; 1; 1] in
  let built := answer_question (U := ascii_unicode) (FL := Z_floats) tiny_db origin_client
                 steady_chat (py "What?") 3 in
  exists sources,
    built !! "sources" = Some (RSources sources)
    /\ built !! "context_used" = Some (RInt (len sources))
    /\ length sources = length (results_docs res)
    /\ forall (i : nat) s, sources !! i = Some s ->
         exists doc metadata d preview,
           results_docs res !! i = Some (VStr doc)
           /\ results_meta res !! i = Some metadata
           /\ results_dist res !! i = Some d
           /\ s !! "relevance_score" = Some (SNum (fsub fone d))
           /\ s !! "chunk_id"
              = Some (SVal (default (VInt (Z.of_nat i)) (metadata !! "chunk_id")))
           /\ s !! "source"
              = Some (SVal (default (VStr (py "Unknown")) (metadata !! "source")))
           /\ s !! "title"
              = Some (SVal (default (VStr (py "Unknown")) (metadata !! "title")))
           /\ s !! "text_preview" = Some (SVal (VStr preview))
           /\ len preview <= 203
           /\ (len doc <= 200 -> preview = doc)
           /\ (200 < len doc -> preview = take 200 doc ++ py "...").
Proof.
  apply (sources_follow_results (U := ascii_unicode) (FL := Z_floats) tiny_db origin_client
           steady_chat (py "What?") 3).
  - vm_compute. reflexivity.
  - discriminate.
  - vm_compute. reflexivity.
Defined.

Lemma upload_stores_before_recording_witness :
  (exists response,
     upload_pdf_fuel (U := ascii_unicode) (FL := Z_floats) status_and_detail posix_join 10
       (init, empty_disk) (py "a.pdf") (fun _ => Ok tt) (fun _ => Ok two_page_reader)
       (fun _ => steady_client) no_write_fault
       (Raise (Exn "OperationalError" (py "database is locked")))
     = Some (fst demo_added, snd demo_added, response)
     /\ response
        = HTTPException 500
            (py "Error processing PDF: "
             ++ (py "Error adding document: " ++ py "database is locked")))
  /\ get_collection_count (fst demo_added)
     = get_collection_count (create_collection (FL := Z_floats) init empty_disk (py "documents"))
       + len demo_chunks.
Proof.
  apply (upload_stores_before_recording (U := ascii_unicode) (FL := Z_floats)
           status_and_detail posix_join 10 (init, empty_disk) (py "a.pdf")
           (fun _ => Ok tt) (fun _ => Ok two_page_reader) (fun _ => steady_client)
           no_write_fault (Raise (Exn "OperationalError" (py "database is locked")))
           demo_chunks (fst demo_added) (snd demo_added)).
  - vm_compute. reflexivity.
  - reflexivity.
  - vm_compute. reflexivity.
  - vm_compute. reflexivity.
Defined.

(** A text file is answered with 500, and nothing is stored. *)
Example upload_text_file_example :
  upload_pdf_fuel (U := ascii_unicode) (FL := Z_floats) status_and_detail posix_join 10
    (init, empty_disk) (py "notes.txt") (fun _ => Ok tt) (fun _ => Ok two_page_reader)
    (fun _ => steady_client) no_write_fault (Ok tt)
  = Some (init, empty_disk,
          HTTPException 500 (py "Error processing PDF: 400: Only PDF files are allowed")).
Proof. vm_compute. reflexivity. Qed.
